(** * transactional_dict: a transactional overlay over a Python dict

    A shallow embedding of [transactional_dict.py].  The Python program
    works on mutable objects that are shared by reference (the base dict
    is owned by the caller, nested dicts are wrapped on first read), so the
    embedding threads an explicit object store through every method:

    - a Python [dict] is an insertion-ordered association list, because
      [commit] walks [self._overlay.items()] in insertion order;
    - the store holds the dict objects and the [TransactionalDict] objects,
      each addressed by its position;
    - a method is a function [heap -> option (heap * result A)]: it
      returns normally, raises, or has no result in the model (fuel of a
      recursive method exhausted, which is where Python ends in a
      RecursionError, or a reference to an object that does not exist). *)

From stdpp Require Import gmap strings list.

#[local] Set Warnings "-clear-no-such-hyp".

(** ** Keys and values *)

Abbreviation loc := nat.

(** Hashable keys used by the module's examples: strings and integers. *)
Inductive key :=
| KStr (s : string)
| KInt (n : Z).

#[global] Instance key_eq_dec : EqDecision key.
Proof. solve_decision. Defined.

#[global] Instance key_countable : Countable key.
Proof.
  refine (inj_countable'
            (fun k => match k with KStr s => inl s | KInt n => inr n end)
            (fun x => match x with inl s => KStr s | inr n => KInt n end) _).
  by intros [].
Defined.

(** Python values.  [VUndefined] is the class object [Undefined] that the
    module uses as its sentinel; [VDict] and [VTrans] are references to a
    dict object and to a [TransactionalDict] object of the store. *)
Inductive val :=
| VNone
| VInt (n : Z)
| VStr (s : string)
| VUndefined
| VDict (l : loc)
| VTrans (l : loc).

#[global] Instance val_eq_dec : EqDecision val.
Proof. solve_decision. Defined.

(** [value is Undefined] *)
Definition is_Undefined (v : val) : bool :=
  match v with VUndefined => true | _ => false end.

(** [isinstance(value, dict)]; [TransactionalDict] does not derive from
    [dict], so a wrapper is not an instance. *)
Definition isinstance_dict (v : val) : bool :=
  match v with VDict _ => true | _ => false end.

(** [isinstance(value, TransactionalDict)] *)
Definition isinstance_TransactionalDict (v : val) : bool :=
  match v with VTrans _ => true | _ => false end.

(** ** Python dicts, insertion ordered *)

Module PyDict.
Section ops.
Context {V : Type}.
Implicit Types (d : list (key * V)) (k : key) (v : V).

(** [d.get(k)], with [None] for an absent key *)
Fixpoint get d k : option V :=
  match d with
  | [] => None
  | (k', v) :: d' => if decide (k' = k) then Some v else get d' k
  end.

(** [k in d] *)
Definition contains k d : bool := bool_decide (is_Some (get d k)).

(** [d[k] = v]: an existing key keeps its position, a new one goes last *)
Fixpoint set d k v : list (key * V) :=
  match d with
  | [] => [(k, v)]
  | (k', v') :: d' =>
      if decide (k' = k) then (k', v) :: d' else (k', v') :: set d' k v
  end.

(** [del d[k]] for a key that is present *)
Fixpoint del d k : list (key * V) :=
  match d with
  | [] => []
  | (k', v') :: d' =>
      if decide (k' = k) then del d' k else (k', v') :: del d' k
  end.

(** [d.keys()] *)
Definition keys d : list key := d.*1.

(** [d.get(k, default)] *)
Definition get_default d k (default : V) : V :=
  match get d k with Some v => v | None => default end.
End ops.
End PyDict.

Abbreviation pydict := (list (key * val)).

(** ** The object store *)

(** A [TransactionalDict] object: [_original] refers to the base dict (the
    constructor is annotated [original: dict]), [_overlay] is the dict the
    object creates for itself and never hands out. *)
Record TransactionalDict := TD {
  _original : loc;
  _overlay : pydict
}.

Record heap := Heap {
  dicts : list pydict;
  wrappers : list TransactionalDict
}.

(** ** Exceptions and the method monad *)

Inductive exn :=
| KeyError_deleted (k : key)
    (* KeyError(f"Key {key} has been deleted in current transaction.") *)
| KeyError (k : key)
    (* KeyError(key), raised by the built-in dict for a missing key *)
| KeyError_not_in_transaction
    (* KeyError("Key {key} not in original dict nor in transaction.") *)
| TypeError (msg : string)
| AssertionError
| Thrown (is_exception : bool) (tag : nat).
    (* any other exception object raised by caller code; [is_exception]
       says whether it is an instance of [Exception] *)

#[global] Instance exn_eq_dec : EqDecision exn.
Proof. solve_decision. Defined.

(** [isinstance(e, Exception)] *)
Definition is_Exception (e : exn) : bool :=
  match e with
  | Thrown b _ => b
  | _ => true
  end.

Inductive result (A : Type) :=
| Ret (a : A)
| Raise (e : exn).
Arguments Ret {A} a.
Arguments Raise {A} e.

Definition M (A : Type) : Type := heap -> option (heap * result A).

Definition ret {A} (a : A) : M A := fun h => Some (h, Ret a).
Definition raise {A} (e : exn) : M A := fun h => Some (h, Raise e).
Definition bind {A B} (m : M A) (f : A -> M B) : M B :=
  fun h =>
    match m h with
    | None => None
    | Some (h', Raise e) => Some (h', Raise e)
    | Some (h', Ret a) => f a h'
    end.

Declare Scope py_scope.
Delimit Scope py_scope with py.
Notation "'do' x <- m ; k" := (bind m (fun x => k))
  (at level 10, x name, m at level 100, k at level 200,
   format "'[v' 'do'  x  <-  m ; '/' k ']'") : py_scope.
Notation "m ;; k" := (bind m (fun _ => k))
  (at level 100, k at level 200, right associativity) : py_scope.
Local Open Scope py_scope.

(** Reading an object through a reference. *)
Definition the_wrapper (w : loc) : M TransactionalDict :=
  fun h => match wrappers h !! w with
           | Some td => Some (h, Ret td)
           | None => None
           end.

Definition the_dict (b : loc) : M pydict :=
  fun h => match dicts h !! b with
           | Some d => Some (h, Ret d)
           | None => None
           end.

(** In-place update of the dict object at [b]. *)
Definition update_dict (b : loc) (f : pydict -> pydict) : M unit :=
  fun h => Some (Heap (alter f b (dicts h)) (wrappers h), Ret tt).

(** In-place update of, or assignment to, [self._overlay]. *)
Definition update_overlay (w : loc) (f : pydict -> pydict) : M unit :=
  fun h =>
    Some (Heap (dicts h)
               (alter (fun td => TD (_original td) (f (_overlay td))) w
                      (wrappers h)),
          Ret tt).

(** ** class TransactionalDict *)

(** [TransactionalDict(original)]: a new object with an empty overlay. *)
Definition __init__ (original : loc) : M loc :=
  fun h =>
    Some (Heap (dicts h) (wrappers h ++ [TD original []]),
          Ret (length (wrappers h))).

Definition __getitem__ (self : loc) (k : key) : M val :=
  do td <- the_wrapper self;
  match PyDict.get (_overlay td) k with
  | Some item =>
      (* key in self._overlay *)
      if is_Undefined item then raise (KeyError_deleted k) else ret item
  | None =>
      do original <- the_dict (_original td);
      match PyDict.get original k with
      | None => raise (KeyError k)
      | Some item =>
          do item <- match item with
                     | VDict m =>
                         (* isinstance(item, dict)
                            and not isinstance(item, TransactionalDict) *)
                         do n <- __init__ m; ret (VTrans n)
                     | _ => ret item
                     end;
          update_overlay self (fun o => PyDict.set o k item);;
          ret item
      end
  end.

Definition __setitem__ (self : loc) (k : key) (value : val) : M unit :=
  do td <- the_wrapper self;
  update_overlay self (fun o => PyDict.set o k value).

Definition __delitem__ (self : loc) (k : key) : M unit :=
  do td <- the_wrapper self;
  do original <- the_dict (_original td);
  if PyDict.contains k original then
    update_overlay self (fun o => PyDict.set o k VUndefined)
  else if PyDict.contains k (_overlay td) then
    update_overlay self (fun o => PyDict.del o k)
  else raise KeyError_not_in_transaction.

Definition __contains__ (self : loc) (k : key) : M bool :=
  do td <- the_wrapper self;
  do original <- the_dict (_original td);
  (* the subscription [self._overlay[key]] is only evaluated for a key of
     the overlay *)
  ret ((negb (PyDict.contains k (_overlay td))
        || negb (is_Undefined (PyDict.get_default (_overlay td) k VNone)))
       && (PyDict.contains k original || PyDict.contains k (_overlay td))).

(** The set comprehension of [__keys]. *)
Definition __keys (self : loc) : M (gset key) :=
  do td <- the_wrapper self;
  do original <- the_dict (_original td);
  ret (list_to_set
         (filter (fun k => is_Undefined
                             (PyDict.get_default (_overlay td) k VNone)
                           = false)
                 (PyDict.keys original ++ PyDict.keys (_overlay td)))).

(** The containers of keys the module builds, and the built-in [len]:
    a set and a list have a length, the iterator of a set has none. *)
Inductive keys_object :=
| PySet (s : gset key)
| PyList (l : list key)
| PySetIterator (s : gset key).

Definition len (o : keys_object) : M nat :=
  match o with
  | PySet s => ret (size s)
  | PyList l => ret (length l)
  | PySetIterator _ =>
      raise (TypeError "object of type 'set_iterator' has no len()")
  end.

(** [iter(self.__keys())] *)
Definition __iter__ (self : loc) : M keys_object :=
  do s <- __keys self; ret (PySetIterator s).

(** [list(self.__keys())] *)
Definition keys (self : loc) : M keys_object :=
  do s <- __keys self; ret (PyList (elements s)).

(** [len(self.__iter__())] *)
Definition __len__ (self : loc) : M nat :=
  do it <- __iter__ self; len it.

(** [self._original[key] = value] and [del self._original[key]] on the
    built-in dict at [b]. *)
Definition dict_setitem (b : loc) (k : key) (value : val) : M unit :=
  do d <- the_dict b;
  update_dict b (fun d => PyDict.set d k value).

Definition dict_delitem (b : loc) (k : key) : M unit :=
  do d <- the_dict b;
  if PyDict.contains k d then update_dict b (fun d => PyDict.del d k)
  else raise (KeyError k).

(** [for key, value in items: acc = body(key, value, acc)] over the items
    the dict had when the loop started.  The three loops of the class walk
    [self._overlay.items()]; nothing they call mutates that dict object
    (commit and abort rebind the attribute to a new dict), so the items
    are those read at the start. *)
Fixpoint for_items {V A} (items : list (key * V))
    (body : key -> V -> A -> M A) (acc : A) : M A :=
  match items with
  | [] => ret acc
  | (k, v) :: rest => do acc <- body k v acc; for_items rest body acc
  end.

(** The body of the loop of [commit], with the recursive call as a
    parameter. *)
Definition commit_item (commit : loc -> M val) (original : loc)
    (k : key) (value : val) (_ : unit) : M unit :=
  match value with
  | VTrans nested =>
      do r <- commit nested;
      dict_setitem original k r
  | VUndefined => dict_delitem original k
  | _ => dict_setitem original k value
  end.

Fixpoint commit (fuel : nat) (self : loc) : M val :=
  match fuel with
  | 0 => fun _ => None
  | S fuel =>
      do td <- the_wrapper self;
      for_items (_overlay td) (commit_item (commit fuel) (_original td)) tt;;
      update_overlay self (fun _ => []);;
      ret (VDict (_original td))
  end.

(** The body of the loop of [abort]. *)
Definition abort_item (abort : loc -> M val) (k : key) (value : val)
    (_ : unit) : M unit :=
  match value with
  | VTrans nested => abort nested;; ret tt
  | _ => ret tt
  end.

Fixpoint abort (fuel : nat) (self : loc) : M val :=
  match fuel with
  | 0 => fun _ => None
  | S fuel =>
      do td <- the_wrapper self;
      for_items (_overlay td) (abort_item (abort fuel)) tt;;
      update_overlay self (fun _ => []);;
      ret (VDict (_original td))
  end.

(** The value [diff] returns is built from new dicts and tuples that
    nothing else refers to, so it is given by value: a pair
    [(old, new)] or the diff of a nested wrapper. *)
#[warnings="-register-all"]
Inductive diffval :=
| DPair (old new : val)
| DNested (d : list (key * diffval)).

(** The body of the loop of [diff]; [td] is the state of [self]. *)
Definition diff_item (diff : loc -> M (list (key * diffval)))
    (td : TransactionalDict) (k : key) (value : val)
    (diff_ : list (key * diffval)) : M (list (key * diffval)) :=
  match value with
  | VTrans nested =>
      do d <- diff nested;
      ret (PyDict.set diff_ k (DNested d))
  | _ =>
      do original <- the_dict (_original td);
      ret (PyDict.set diff_ k
             (DPair (PyDict.get_default original k VUndefined)
                    (PyDict.get_default (_overlay td) k VUndefined)))
  end.

Fixpoint diff (fuel : nat) (self : loc) : M (list (key * diffval)) :=
  match fuel with
  | 0 => fun _ => None
  | S fuel =>
      do td <- the_wrapper self;
      for_items (_overlay td) (diff_item (diff fuel) td) []
  end.

(** ** The context manager [transaction] *)

(** [try: body  except Exception: handler; raise] *)
Definition try_except_Exception {A} (body : M A) (handler : M unit) : M A :=
  fun h =>
    match body h with
    | Some (h', Raise e) =>
        if is_Exception e then
          match handler h' with
          | Some (h'', Ret _) => Some (h'', Raise e)
          | Some (h'', Raise e') => Some (h'', Raise e')
          | None => None
          end
        else Some (h', Raise e)
    | r => r
    end.

(** [with transaction(original_dict) as rw: scope(rw)].  The generator
    runs to its [yield] when the block is entered, the block is [scope],
    and leaving the block resumes the generator, normally or with the
    exception of the block thrown at the [yield]. *)
Definition transaction (fuel : nat) (original_dict : val)
    (scope : loc -> M unit) : M unit :=
  match original_dict with
  | VDict b =>
      do transactional_dict <- __init__ b;
      try_except_Exception
        (scope transactional_dict;;
         commit fuel transactional_dict;;
         ret tt)
        (abort fuel transactional_dict;; ret tt)
  | _ =>
      (* assert isinstance(original_dict, dict) *)
      raise AssertionError
  end.

(** ** Scripts of calls, invariants of the store, example stores *)

(** The calls a caller makes on wrappers between their creation and
    commit or abort.  A wrapper is named by its reference, so a script
    reaches the top wrapper and every nested wrapper that a get returned,
    also one that the top wrapper no longer holds. *)
Inductive op :=
| OpGet (w : loc) (k : key)
| OpSet (w : loc) (k : key) (v : val)
| OpDel (w : loc) (k : key).

(** One call of a script. *)
Definition run_op (o : op) : M unit :=
  match o with
  | OpGet w k => __getitem__ w k;; ret tt
  | OpSet w k v => __setitem__ w k v
  | OpDel w k => __delitem__ w k
  end.

(** The calls in sequence; a KeyError is caught by the caller, who goes
    on with the next call. *)
Fixpoint run_ops (ops : list op) (h : heap) : option heap :=
  match ops with
  | [] => Some h
  | o :: ops =>
      match run_op o h with
      | Some (h', _) => run_ops ops h'
      | None => None
      end
  end.

(** A call that stores no [TransactionalDict] object as a value: the
    values a caller stages are scalars and dicts. *)
Definition plain_op (o : op) : Prop :=
  match o with
  | OpSet _ _ v => isinstance_TransactionalDict v = false
  | _ => True
  end.

(** A call other than a set or a delete of key [k] on wrapper [w]. *)
Definition leaves_key (w : loc) (k : key) (o : op) : Prop :=
  match o with
  | OpSet w0 k0 _ | OpDel w0 k0 => w0 <> w \/ k0 <> k
  | OpGet _ _ => True
  end.

(** The wrapper a call is made on. *)
Definition op_target (o : op) : loc :=
  match o with OpGet w _ | OpSet w _ _ | OpDel w _ => w end.

(** No method reassigns [_original], and wrappers are never removed. *)
Definition same_originals (h h' : heap) : Prop :=
  forall w, _original <$> wrappers h' !! w = _original <$> wrappers h !! w.

(** Wrappers are never removed, and each stays over its base. *)
Definition extends (h h' : heap) : Prop :=
  forall w td, wrappers h !! w = Some td ->
    exists td', wrappers h' !! w = Some td' /\ _original td' = _original td.

(** The wrappers of a store are well nested when each one is over a dict
    of the store, its overlay has one entry for a key, and the wrappers in
    its overlay were created after it (a get puts them there). *)
Definition well_nested (h : heap) : Prop :=
  forall w td, wrappers h !! w = Some td ->
    is_Some (dicts h !! _original td)
    /\ NoDup (PyDict.keys (_overlay td))
    /\ forall k w', (k, VTrans w') ∈ _overlay td ->
         w < w' < length (wrappers h).

(** The dicts of a store are plain data when no wrapper is stored in
    them and the dicts they refer to exist. *)
Definition plain_data (h : heap) : Prop :=
  forall b d k v, dicts h !! b = Some d -> (k, v) ∈ d ->
    match v with
    | VTrans _ => False
    | VDict m => is_Some (dicts h !! m)
    | _ => True
    end.

(** What [abort] does to a store: the dicts stay, and overlays are
    emptied. *)
Definition cleared (h h' : heap) : Prop :=
  dicts h' = dicts h
  /\ length (wrappers h') = length (wrappers h)
  /\ forall w td', wrappers h' !! w = Some td' ->
       exists td, wrappers h !! w = Some td
                  /\ _original td' = _original td
                  /\ (_overlay td' = _overlay td \/ _overlay td' = []).

(** A store for the examples: the base dict
    [{"a": 1, "n": {"p": 1}, "d": 2}] at 0, its nested dict at 1, and one
    wrapper over the base whose overlay is [{"d": Undefined, "o": 5}]. *)
Definition example_base : pydict :=
  [(KStr "a", VInt 1); (KStr "n", VDict 1); (KStr "d", VInt 2)].
Definition example_wrapper : TransactionalDict :=
  TD 0 [(KStr "d", VUndefined); (KStr "o", VInt 5)].
Definition example_heap : heap :=
  Heap [example_base; [(KStr "p", VInt 1)]] [example_wrapper].

(** The dicts of the examples, before any wrapper is created. *)
Definition example_data : heap :=
  Heap [example_base; [(KStr "p", VInt 1)]] [].

(** The dicts of the examples with one new wrapper over the base. *)
Definition example_heap0 : heap :=
  Heap (dicts example_data) [TD 0 []].

(** Calls on the first wrapper over the base of the examples and on the
    wrapper of its nested dict; the last get raises KeyError. *)
Definition example_script : list op :=
  [OpSet 0 (KStr "a") (VStr "x"); OpGet 0 (KStr "n");
   OpSet 1 (KStr "p") (VInt 2); OpDel 0 (KStr "d"); OpGet 0 (KStr "zz")].

(** ** The remaining methods, and notions for their properties *)

(** [__missing__]: [key not in self]. *)
Definition __missing__ (self : loc) (k : key) : M bool :=
  do c <- __contains__ self k; ret (negb c).

(** What a wrapper with overlay [o] over the base [B] shows for a key:
    the overlay entry unless it is the deletion marker, and the base
    entry for a key the overlay does not have. *)
Definition effective (B o : pydict) (k : key) : option val :=
  match PyDict.get o k with
  | Some v => if is_Undefined v then None else Some v
  | None => PyDict.get B k
  end.

(** An overlay that holds no wrapper. *)
Definition flat (o : pydict) : Prop :=
  forall k v, (k, v) ∈ o -> isinstance_TransactionalDict v = false.

(** [c] is a wrapper that the overlay of [w] holds. *)
Definition child (h : heap) (w c : loc) : Prop :=
  exists td k, wrappers h !! w = Some td /\ (k, VTrans c) ∈ _overlay td.

(** The wrapper [w] has nothing staged. *)
Definition empty_in (h : heap) (w : loc) : Prop :=
  exists td, wrappers h !! w = Some td /\ _overlay td = [].

(** A block of a [with] statement that makes the calls of a script and
    then ends as [final] says: normally, or by raising. *)
Definition script_scope (ops : list op) (final : result unit)
    (rw : loc) : M unit :=
  fun h =>
    match run_ops ops h with
    | Some h' => Some (h', final)
    | None => None
    end.

(** What [commit] does to a store, whether it returns or raises: no
    object is created or removed, wrappers stay over their bases, and an
    overlay is either as it was or emptied. *)
Definition settled (h h' : heap) : Prop :=
  length (dicts h') = length (dicts h)
  /\ length (wrappers h') = length (wrappers h)
  /\ forall w td', wrappers h' !! w = Some td' ->
       exists td, wrappers h !! w = Some td
                  /\ _original td' = _original td
                  /\ (_overlay td' = _overlay td \/ _overlay td' = []).

(** A wrapper over the base of the examples whose overlay marks as
    deleted a key, ["zz"], that the base does not have. *)
Definition example_stale_wrapper : TransactionalDict :=
  TD 0 [(KStr "a", VInt 9); (KStr "zz", VUndefined); (KStr "d", VInt 8)].
Definition example_stale_heap : heap :=
  Heap (dicts example_data) [example_stale_wrapper].

(** A call that only reads. *)
Definition is_get (o : op) : Prop :=
  match o with OpGet _ _ => True | _ => False end.

(** No dict of the store holds the sentinel [Undefined] as a value. *)
Definition no_sentinel (h : heap) : Prop :=
  forall b d k, dicts h !! b = Some d -> (k, VUndefined) ∉ d.

(** Every overlay mirrors its base, as it does when the wrappers were
    only read: an entry is the value the base has for the key, or the
    wrapper of the dict the base has for the key. *)
Definition mirrors (h : heap) : Prop :=
  forall w td B k v,
    wrappers h !! w = Some td -> dicts h !! _original td = Some B ->
    (k, v) ∈ _overlay td ->
    match v with
    | VTrans n =>
        exists tdn, wrappers h !! n = Some tdn
                    /\ PyDict.get B k = Some (VDict (_original tdn))
    | VUndefined => False
    | _ => PyDict.get B k = Some v
    end.

(** The store of the example of the module: a wrapper over the base with
    a staged value, the wrapper of the nested dict (itself with a staged
    value) and a deletion. *)
Definition example_outer : TransactionalDict :=
  TD 0 [(KStr "a", VStr "x"); (KStr "n", VTrans 1); (KStr "d", VUndefined)].
Definition example_inner : TransactionalDict := TD 1 [(KStr "p", VInt 2)].
Definition example_nested_heap : heap :=
  Heap (dicts example_data) [example_outer; example_inner].

(** * Properties *)

(** ** Laws of the insertion-ordered dict *)

Module PyDictFacts.
Section facts.
Context {V : Type}.
Implicit Types (d : list (key * V)) (k : key) (v : V).

Lemma get_set_eq d k v : PyDict.get (PyDict.set d k v) k = Some v.
Proof.
  induction d as [|[k' v'] d IH]; simpl.
  - by rewrite decide_True.
  - destruct (decide (k' = k)) as [->|Hne]; simpl.
    + by rewrite decide_True.
    + by rewrite decide_False.
Qed.

Lemma get_set_ne d k k' v :
  k <> k' -> PyDict.get (PyDict.set d k v) k' = PyDict.get d k'.
Proof.
  intros Hne. induction d as [|[k0 v0] d IH]; simpl.
  - by rewrite decide_False.
  - destruct (decide (k0 = k)) as [->|Hne0]; simpl.
    + by rewrite !decide_False.
    + by rewrite IH.
Qed.

Lemma get_del_eq d k : PyDict.get (PyDict.del d k) k = None.
Proof.
  induction d as [|[k' v'] d IH]; simpl; [done|].
  destruct (decide (k' = k)); simpl; [done|]. by rewrite decide_False.
Qed.

Lemma get_del_ne d k k' :
  k <> k' -> PyDict.get (PyDict.del d k) k' = PyDict.get d k'.
Proof.
  intros Hne. induction d as [|[k0 v0] d IH]; simpl; [done|].
  destruct (decide (k0 = k)) as [->|Hne0]; simpl.
  - by rewrite decide_False.
  - by rewrite IH.
Qed.

Lemma contains_true k d :
  PyDict.contains k d = true <-> is_Some (PyDict.get d k).
Proof. unfold PyDict.contains. apply bool_decide_eq_true. Qed.

Lemma contains_false k d :
  PyDict.contains k d = false <-> PyDict.get d k = None.
Proof.
  unfold PyDict.contains. rewrite bool_decide_eq_false.
  by rewrite eq_None_not_Some.
Qed.

Lemma get_Some_elem d k v : PyDict.get d k = Some v -> (k, v) ∈ d.
Proof.
  induction d as [|[k' v'] d IH]; simpl; [done|].
  destruct (decide (k' = k)) as [->|Hne].
  - intros [= ->]. apply list_elem_of_here.
  - intros H. apply list_elem_of_further. by apply IH.
Qed.

Lemma elem_set d k v k' v' :
  (k', v') ∈ PyDict.set d k v -> (k', v') ∈ d \/ (k' = k /\ v' = v).
Proof.
  induction d as [|[k0 v0] d IH]; simpl.
  - intros H%list_elem_of_singleton. injection H as -> ->. by right.
  - destruct (decide (k0 = k)) as [->|Hne].
    + intros [H|H]%elem_of_cons.
      * injection H as -> ->. by right.
      * left. by apply list_elem_of_further.
    + intros [H|H]%elem_of_cons.
      * injection H as -> ->. left. apply list_elem_of_here.
      * destruct (IH H) as [?|?]; [left|by right].
        by apply list_elem_of_further.
Qed.

Lemma elem_del d k k' v' : (k', v') ∈ PyDict.del d k -> (k', v') ∈ d.
Proof.
  induction d as [|[k0 v0] d IH]; simpl; [done|].
  destruct (decide (k0 = k)) as [->|Hne].
  - intros H. apply list_elem_of_further. by apply IH.
  - intros [H|H]%elem_of_cons.
    + injection H as -> ->. apply list_elem_of_here.
    + apply list_elem_of_further. by apply IH.
Qed.

(** A key that is absent is appended by [set]. *)
Lemma set_fresh d k v :
  PyDict.get d k = None -> PyDict.set d k v = d ++ [(k, v)].
Proof.
  induction d as [|[k0 v0] d IH]; simpl; [done|].
  destruct (decide (k0 = k)); [done|]. intros H. by rewrite IH.
Qed.
End facts.
End PyDictFacts.

(** ** Single operations on a wrapper *)

(** Unfolds the monad around the primitive reads and writes of the store. *)
Ltac run_py :=
  unfold bind, ret, raise, the_wrapper, the_dict, update_overlay,
    update_dict, __init__; simpl.

Section single_operations.
Variables (h : heap) (self : loc) (td : TransactionalDict) (B : pydict).
Hypothesis Hself : wrappers h !! self = Some td.
Hypothesis Hbase : dicts h !! _original td = Some B.

Lemma store_overlay_insert (f : pydict -> pydict) :
  alter (fun td => TD (_original td) (f (_overlay td))) self (wrappers h)
  = <[self := TD (_original td) (f (_overlay td))]> (wrappers h).
Proof using Hself.
  apply list_eq. intros i. rewrite list_lookup_alter, list_lookup_insert.
  pose proof (lookup_lt_Some _ _ _ Hself).
  destruct (decide (self = i)) as [<-|Hne].
  - rewrite !decide_True by done. by rewrite Hself.
  - rewrite decide_False; [done|]. by intros [? _].
Qed.

Lemma setitem_runs k v :
  __setitem__ self k v h =
    Some (Heap (dicts h)
            (<[self := TD (_original td) (PyDict.set (_overlay td) k v)]>
               (wrappers h)),
          Ret tt).
Proof using Hself.
  unfold __setitem__. run_py. rewrite Hself.
  by rewrite (store_overlay_insert (fun o => PyDict.set o k v)).
Qed.
Lemma getitem_hit k v :
  PyDict.get (_overlay td) k = Some v -> v <> VUndefined ->
  __getitem__ self k h = Some (h, Ret v).
Proof using Hself.
  intros Ho Hv. unfold __getitem__. run_py. rewrite Hself, Ho.
  by destruct v.
Qed.

Lemma getitem_miss k v :
  PyDict.get (_overlay td) k = None -> PyDict.get B k = Some v ->
  __getitem__ self k h
  = Some (match v with
          | VDict m =>
              (Heap (dicts h)
                 (<[self := TD (_original td)
                              (PyDict.set (_overlay td) k
                                 (VTrans (length (wrappers h))))]>
                    (wrappers h ++ [TD m []])),
               Ret (VTrans (length (wrappers h))))
          | _ =>
              (Heap (dicts h)
                 (<[self := TD (_original td)
                              (PyDict.set (_overlay td) k v)]>
                    (wrappers h)),
               Ret v)
          end).
Proof using Hself Hbase.
  intros Ho Hb. unfold __getitem__. run_py. rewrite Hself, Ho, Hbase, Hb.
  pose proof (lookup_lt_Some _ _ _ Hself) as Hlt.
  destruct v as [| | | |m|w];
    try (simpl;
         by rewrite (store_overlay_insert (fun o => PyDict.set o k _))).
  simpl. do 3 f_equal. apply list_eq. intros i.
  rewrite list_lookup_alter, list_lookup_insert, length_app. simpl.
  destruct (decide (self = i)) as [<-|Hne].
  - rewrite decide_True by (split; [done|lia]).
    by rewrite lookup_app_l, Hself by done.
  - rewrite decide_False; [done|]. by intros [? _].
Qed.

Lemma delitem_runs k :
  __delitem__ self k h
  = Some (if PyDict.contains k B then
            (Heap (dicts h)
               (<[self := TD (_original td)
                            (PyDict.set (_overlay td) k VUndefined)]>
                  (wrappers h)), Ret tt)
          else if PyDict.contains k (_overlay td) then
            (Heap (dicts h)
               (<[self := TD (_original td) (PyDict.del (_overlay td) k)]>
                  (wrappers h)), Ret tt)
          else (h, Raise KeyError_not_in_transaction)).
Proof using Hself Hbase.
  unfold __delitem__. run_py. rewrite Hself, Hbase.
  destruct (PyDict.contains k B).
  { by rewrite (store_overlay_insert (fun o => PyDict.set o k VUndefined)). }
  destruct (PyDict.contains k (_overlay td)); [|done].
  by rewrite (store_overlay_insert (fun o => PyDict.del o k)).
Qed.
End single_operations.

(** C2.  [get(k)] by cases, for a wrapper [self] over the base dict [B]:
    a deletion marker in the overlay raises the "deleted in current
    transaction" KeyError; any other overlay entry is returned as it is
    and nothing changes; a key of the base only is returned, wrapped in a
    new [TransactionalDict] over the same dict object when the base value
    is a dict, and the returned value is stored in the overlay under [k]
    (also when it is not a dict); a key of neither raises the KeyError of
    the base dict. *)
Theorem getitem_by_cases (h : heap) (self : loc) (td : TransactionalDict)
    (B : pydict) (k : key) :
  wrappers h !! self = Some td ->
  dicts h !! _original td = Some B ->
  (PyDict.get (_overlay td) k = Some VUndefined ->
     __getitem__ self k h = Some (h, Raise (KeyError_deleted k)))
  /\ (forall v, PyDict.get (_overlay td) k = Some v -> v <> VUndefined ->
        __getitem__ self k h = Some (h, Ret v))
  /\ (forall m, PyDict.get (_overlay td) k = None ->
        PyDict.get B k = Some (VDict m) ->
        exists h' n,
          __getitem__ self k h = Some (h', Ret (VTrans n))
          /\ wrappers h !! n = None
          /\ wrappers h' !! n = Some (TD m [])
          /\ wrappers h' !! self
             = Some (TD (_original td)
                        (PyDict.set (_overlay td) k (VTrans n)))
          /\ (forall w, w <> self -> w <> n ->
                wrappers h' !! w = wrappers h !! w)
          /\ dicts h' = dicts h)
  /\ (forall v, PyDict.get (_overlay td) k = None ->
        PyDict.get B k = Some v -> isinstance_dict v = false ->
        exists h',
          __getitem__ self k h = Some (h', Ret v)
          /\ wrappers h' !! self
             = Some (TD (_original td) (PyDict.set (_overlay td) k v))
          /\ length (wrappers h') = length (wrappers h)
          /\ (forall w, w <> self -> wrappers h' !! w = wrappers h !! w)
          /\ dicts h' = dicts h)
  /\ (PyDict.get (_overlay td) k = None -> PyDict.get B k = None ->
        __getitem__ self k h = Some (h, Raise (KeyError k))).
Proof.
  intros Hself Hbase.
  pose proof (lookup_lt_Some _ _ _ Hself) as Hlt.
  repeat split.
  - intros Ho. unfold __getitem__. run_py. by rewrite Hself, Ho.
  - intros v Ho Hv. unfold __getitem__. run_py. rewrite Hself, Ho.
    by destruct v.
  - intros m Ho Hb. eexists _, (length (wrappers h)).
    unfold __getitem__. run_py. rewrite Hself, Ho, Hbase, Hb. simpl.
    split; [reflexivity|]. simpl. repeat split.
    + by apply lookup_ge_None_2.
    + rewrite list_lookup_alter_ne by lia.
      by rewrite lookup_app_r, Nat.sub_diag by lia.
    + rewrite list_lookup_alter_eq, lookup_app_l, Hself by done. done.
    + intros w Hw Hn. rewrite list_lookup_alter_ne by done.
      destruct (decide (w < length (wrappers h))).
      * by rewrite lookup_app_l.
      * rewrite !lookup_ge_None_2; [done|lia|].
        rewrite length_app. simpl. lia.
  - intros v Ho Hb Hv. eexists.
    unfold __getitem__. run_py. rewrite Hself, Ho, Hbase, Hb.
    split; [by destruct v|].
    destruct v; try discriminate; simpl; repeat split;
      try (by rewrite list_lookup_alter_eq, Hself);
      try (by rewrite length_alter);
      try (by intros w Hw; rewrite list_lookup_alter_ne).
  - intros Ho Hb. unfold __getitem__. run_py.
    by rewrite Hself, Ho, Hbase, Hb.
Qed.

Lemma getitem_by_cases_witness :
  __getitem__ 0 (KStr "d") example_heap
    = Some (example_heap, Raise (KeyError_deleted (KStr "d")))
  /\ __getitem__ 0 (KStr "o") example_heap
     = Some (example_heap, Ret (VInt 5))
  /\ (exists h' n,
        __getitem__ 0 (KStr "n") example_heap = Some (h', Ret (VTrans n))
        /\ wrappers h' !! n = Some (TD 1 []))
  /\ (exists h',
        __getitem__ 0 (KStr "a") example_heap = Some (h', Ret (VInt 1))
        /\ wrappers h' !! 0
           = Some (TD 0 [(KStr "d", VUndefined); (KStr "o", VInt 5);
                         (KStr "a", VInt 1)]))
  /\ __getitem__ 0 (KStr "z") example_heap
     = Some (example_heap, Raise (KeyError (KStr "z"))).
Proof.
  split; [|split; [|split; [|split]]].
  - exact (proj1 (getitem_by_cases example_heap 0 example_wrapper
                    example_base (KStr "d") eq_refl eq_refl) eq_refl).
  - refine (proj1 (proj2 (getitem_by_cases example_heap 0 example_wrapper
                            example_base (KStr "o") eq_refl eq_refl))
              (VInt 5) eq_refl _).
    discriminate.
  - destruct (proj1 (proj2 (proj2 (getitem_by_cases example_heap 0
                                     example_wrapper example_base (KStr "n")
                                     eq_refl eq_refl))) 1 eq_refl eq_refl)
      as (h' & n & Hget & _ & Hn & _).
    exists h', n. split; assumption.
  - destruct (proj1 (proj2 (proj2 (proj2 (getitem_by_cases example_heap 0
                                     example_wrapper example_base (KStr "a")
                                     eq_refl eq_refl)))) (VInt 1)
                eq_refl eq_refl eq_refl)
      as (h' & Hget & Hself & _).
    exists h'. split; assumption.
  - exact (proj2 (proj2 (proj2 (proj2 (getitem_by_cases example_heap 0
                                     example_wrapper example_base (KStr "z")
                                     eq_refl eq_refl)))) eq_refl eq_refl).
Defined.

(** C3.  [delete(k)] by cases: a key of the base gets the deletion marker
    in the overlay, whatever the overlay held for it; a key of the overlay
    only has its overlay entry removed, and no marker is left; a key of
    neither raises the "not in original dict nor in transaction"
    KeyError.  Nothing else in the store changes. *)
Theorem delitem_by_cases (h : heap) (self : loc) (td : TransactionalDict)
    (B : pydict) (k : key) :
  wrappers h !! self = Some td ->
  dicts h !! _original td = Some B ->
  (is_Some (PyDict.get B k) ->
     __delitem__ self k h
     = Some (Heap (dicts h)
               (<[self := TD (_original td)
                             (PyDict.set (_overlay td) k VUndefined)]>
                  (wrappers h)),
             Ret tt)
     /\ PyDict.get (PyDict.set (_overlay td) k VUndefined) k
        = Some VUndefined)
  /\ (PyDict.get B k = None -> is_Some (PyDict.get (_overlay td) k) ->
        __delitem__ self k h
        = Some (Heap (dicts h)
                  (<[self := TD (_original td) (PyDict.del (_overlay td) k)]>
                     (wrappers h)),
                Ret tt)
        /\ PyDict.get (PyDict.del (_overlay td) k) k = None)
  /\ (PyDict.get B k = None -> PyDict.get (_overlay td) k = None ->
        __delitem__ self k h = Some (h, Raise KeyError_not_in_transaction)).
Proof.
  intros Hself Hbase. repeat split.
  - unfold __delitem__. run_py. rewrite Hself, Hbase.
    apply PyDictFacts.contains_true in H as ->. run_py.
    by rewrite (store_overlay_insert h self td Hself
                  (fun o => PyDict.set o k VUndefined)).
  - apply PyDictFacts.get_set_eq.
  - unfold __delitem__. run_py. rewrite Hself, Hbase.
    apply PyDictFacts.contains_false in H as ->.
    apply PyDictFacts.contains_true in H0 as ->. run_py.
    by rewrite (store_overlay_insert h self td Hself
                  (fun o => PyDict.del o k)).
  - apply PyDictFacts.get_del_eq.
  - intros Hb Ho. unfold __delitem__. run_py. rewrite Hself, Hbase.
    apply PyDictFacts.contains_false in Hb as ->.
    by apply PyDictFacts.contains_false in Ho as ->.
Qed.

Lemma delitem_by_cases_witness :
  __delitem__ 0 (KStr "d") example_heap
    = Some (Heap (dicts example_heap)
              [TD 0 [(KStr "d", VUndefined); (KStr "o", VInt 5)]], Ret tt)
  /\ __delitem__ 0 (KStr "o") example_heap
     = Some (Heap (dicts example_heap) [TD 0 [(KStr "d", VUndefined)]],
             Ret tt)
  /\ __delitem__ 0 (KStr "z") example_heap
     = Some (example_heap, Raise KeyError_not_in_transaction).
Proof.
  split; [|split].
  - exact (proj1 (proj1 (delitem_by_cases example_heap 0 example_wrapper
                           example_base (KStr "d") eq_refl eq_refl)
                    (ex_intro _ (VInt 2) eq_refl))).
  - exact (proj1 (proj1 (proj2 (delitem_by_cases example_heap 0
                                  example_wrapper example_base (KStr "o")
                                  eq_refl eq_refl))
                    eq_refl (ex_intro _ (VInt 5) eq_refl))).
  - exact (proj2 (proj2 (delitem_by_cases example_heap 0 example_wrapper
                           example_base (KStr "z") eq_refl eq_refl))
             eq_refl eq_refl).
Defined.

(** C8.  For a key that is present (in the base or in the overlay, so
    that the delete succeeds) and a value [v] other than the sentinel
    [Undefined] itself: delete, then set, then get returns [v]; no
    KeyError is raised. *)
Theorem delete_set_get_returns_new_value (h : heap) (self : loc)
    (td : TransactionalDict) (B : pydict) (k : key) (v : val) :
  wrappers h !! self = Some td ->
  dicts h !! _original td = Some B ->
  is_Some (PyDict.get B k) \/ is_Some (PyDict.get (_overlay td) k) ->
  v <> VUndefined ->
  exists h',
    (__delitem__ self k;; __setitem__ self k v;; __getitem__ self k) h
    = Some (h', Ret v).
Proof.
  intros Hself Hbase Hk Hv.
  pose proof (lookup_lt_Some _ _ _ Hself) as Hlt.
  assert (exists o, __delitem__ self k h
                    = Some (Heap (dicts h)
                              (<[self := TD (_original td) o]> (wrappers h)),
                            Ret tt)) as [o Hdel].
  { rewrite (delitem_runs h self td B Hself Hbase).
    destruct (PyDict.contains k B) eqn:HB; [by eexists|].
    destruct (PyDict.contains k (_overlay td)) eqn:Ho; [by eexists|].
    apply PyDictFacts.contains_false in HB, Ho. rewrite HB, Ho in Hk.
    by destruct Hk as [[? [=]]|[? [=]]]. }
  set (h1 := Heap (dicts h) (<[self := TD (_original td) o]> (wrappers h))).
  assert (wrappers h1 !! self = Some (TD (_original td) o)) as Hself1
    by (by apply list_lookup_insert_eq).
  set (h2 := Heap (dicts h1)
               (<[self := TD (_original td) (PyDict.set o k v)]>
                  (wrappers h1))).
  assert (wrappers h2 !! self = Some (TD (_original td) (PyDict.set o k v)))
    as Hself2.
  { apply list_lookup_insert_eq. unfold h1. simpl.
    by rewrite length_insert. }
  exists h2. unfold bind at 1. rewrite Hdel. fold h1.
  unfold bind. rewrite (setitem_runs h1 self _ Hself1 k v). fold h2.
  apply (getitem_hit h2 self _ Hself2); [|done].
  apply PyDictFacts.get_set_eq.
Qed.

Lemma delete_set_get_returns_new_value_witness :
  exists h',
    (__delitem__ 0 (KStr "a");; __setitem__ 0 (KStr "a") (VStr "new");;
     __getitem__ 0 (KStr "a")) example_heap
    = Some (h', Ret (VStr "new")).
Proof.
  refine (delete_set_get_returns_new_value example_heap 0 example_wrapper
            example_base (KStr "a") (VStr "new") eq_refl eq_refl
            (or_introl (ex_intro _ (VInt 1) eq_refl)) _).
  discriminate.
Defined.

(** C5.  The literal of the specification: over [B = {"x": 1}], setting
    ["x"] to ["y"] and ["z"] to [3] on a new wrapper gives the diff
    [{"x": (1, "y"), "z": (Undefined, 3)}], and the commit that follows
    returns [B], which is then [{"x": "y", "z": 3}]. *)
Theorem diff_then_commit_literal (fuel : nat) :
  (do t <- __init__ 0;
   __setitem__ t (KStr "x") (VStr "y");;
   __setitem__ t (KStr "z") (VInt 3);;
   do d <- diff (S fuel) t;
   do b <- commit (S fuel) t;
   ret (d, b))
    (Heap [[(KStr "x", VInt 1)]] [])
  = Some (Heap [[(KStr "x", VStr "y"); (KStr "z", VInt 3)]] [TD 0 []],
          Ret ([(KStr "x", DPair (VInt 1) (VStr "y"));
                (KStr "z", DPair VUndefined (VInt 3))],
               VDict 0)).
Proof. reflexivity. Qed.

(** ** The key set and [__len__] *)

(** [__keys] is the union of the keys of the base and of the overlay
    without the keys that the overlay marks as deleted. *)
Lemma keys_spec (h : heap) (self : loc) (td : TransactionalDict)
    (B : pydict) :
  wrappers h !! self = Some td ->
  dicts h !! _original td = Some B ->
  exists s,
    __keys self h = Some (h, Ret s)
    /\ forall k, k ∈ s <->
         (is_Some (PyDict.get B k) \/ is_Some (PyDict.get (_overlay td) k))
         /\ PyDict.get (_overlay td) k <> Some VUndefined.
Proof.
  intros Hself Hbase. eexists. split.
  { unfold __keys. run_py. by rewrite Hself, Hbase. }
  assert (forall (d : pydict) k,
            k ∈ PyDict.keys d <-> is_Some (PyDict.get d k)) as Hkeys.
  { intros d k. unfold PyDict.keys. induction d as [|[k' v'] d IH]; simpl.
    - rewrite elem_of_nil. split; [done|]. by intros [? [=]].
    - rewrite elem_of_cons, IH.
      destruct (decide (k' = k)) as [->|]; [|naive_solver].
      split; [by eexists|by left]. }
  intros k. rewrite elem_of_list_to_set, list_elem_of_filter, elem_of_app.
  rewrite !Hkeys. unfold PyDict.get_default.
  destruct (PyDict.get (_overlay td) k) as [[]|]; simpl; naive_solver.
Qed.

(** C7 fails on the code.  [__len__] applies the built-in [len] to the
    iterator that [__iter__] returns, and an iterator has no length: for
    every wrapper the call raises TypeError instead of returning the size
    of the key set. *)
Theorem len_raises_TypeError (h : heap) (self : loc)
    (td : TransactionalDict) (B : pydict) :
  wrappers h !! self = Some td ->
  dicts h !! _original td = Some B ->
  __len__ self h
  = Some (h, Raise (TypeError "object of type 'set_iterator' has no len()")).
Proof.
  intros Hself Hbase. unfold __len__, __iter__, __keys. run_py.
  by rewrite Hself, Hbase.
Qed.

Lemma len_raises_TypeError_witness :
  __len__ 0 example_heap
  = Some (example_heap,
          Raise (TypeError "object of type 'set_iterator' has no len()")).
Proof.
  exact (len_raises_TypeError example_heap 0 example_wrapper example_base
           eq_refl eq_refl).
Defined.

(** ** Inversion of the monad and of the loops *)

Lemma bind_inv {A B} (m : M A) (f : A -> M B) h h' r :
  bind m f h = Some (h', r) ->
  (exists h1 a, m h = Some (h1, Ret a) /\ f a h1 = Some (h', r))
  \/ (exists e, m h = Some (h', Raise e) /\ r = Raise e).
Proof.
  unfold bind. destruct (m h) as [[h1 [a|e]]|]; [|intros [= <- <-]|done].
  - intros H. left. by exists h1, a.
  - right. by exists e.
Qed.

Lemma bind_ret_inv {A B} (m : M A) (f : A -> M B) h h' b :
  bind m f h = Some (h', Ret b) ->
  exists h1 a, m h = Some (h1, Ret a) /\ f a h1 = Some (h', Ret b).
Proof. intros [H|(e & _ & [=])]%bind_inv. done. Qed.

(** A reflexive and transitive relation between stores that every
    iteration of a loop establishes is established by the loop. *)
Lemma for_items_preserves {V A} (R : relation heap) `{!PreOrder R}
    (items : list (key * V)) (body : key -> V -> A -> M A) :
  (forall k v acc h h' r,
     (k, v) ∈ items -> body k v acc h = Some (h', r) -> R h h') ->
  forall acc h h' r,
    for_items items body acc h = Some (h', r) -> R h h'.
Proof.
  induction items as [|[k v] items IH]; intros Hbody acc h h' r; simpl.
  - intros [= <- <-]. reflexivity.
  - intros [(h1 & a & Hb & Hrest)|(e & Hb & ->)]%bind_inv.
    + transitivity h1.
      * eapply Hbody; [apply list_elem_of_here|done].
      * eapply IH; [|done]. intros k0 v0 acc0 h0 h0' r0 Hin Hb0.
        eapply Hbody; [by apply list_elem_of_further|done].
    + eapply Hbody; [apply list_elem_of_here|done].
Qed.

(** ** What [commit] leaves of the wrappers *)

#[global] Instance same_originals_preorder : PreOrder same_originals.
Proof.
  split.
  - by intros h w.
  - intros h1 h2 h3 H12 H23 w. by rewrite H23, H12.
Qed.

Lemma update_overlay_same_originals w f h h' r :
  update_overlay w f h = Some (h', r) -> same_originals h h'.
Proof.
  intros [= <- <-] w'. simpl. rewrite list_lookup_alter.
  case_decide; [subst|done]. by destruct (wrappers h !! w').
Qed.

Lemma dict_setitem_wrappers b k v h h' r :
  dict_setitem b k v h = Some (h', r) -> wrappers h' = wrappers h.
Proof.
  unfold dict_setitem. run_py. destruct (dicts h !! b); [|done].
  by intros [= <- <-].
Qed.

Lemma dict_delitem_wrappers b k h h' r :
  dict_delitem b k h = Some (h', r) -> wrappers h' = wrappers h.
Proof.
  unfold dict_delitem. run_py. destruct (dicts h !! b); [|done].
  destruct (PyDict.contains k _); by intros [= <- <-].
Qed.

Lemma same_originals_of_wrappers h h' :
  wrappers h' = wrappers h -> same_originals h h'.
Proof. intros Heq w. by rewrite Heq. Qed.

Lemma the_wrapper_inv w h h' r :
  the_wrapper w h = Some (h', r) ->
  exists td, wrappers h !! w = Some td /\ h' = h /\ r = Ret td.
Proof.
  unfold the_wrapper. destruct (wrappers h !! w) as [td|]; [|done].
  intros [= <- <-]. by exists td.
Qed.

Lemma commit_item_same_originals (rec : loc -> M val) original k v acc
    h h' r :
  (forall w h h' r, rec w h = Some (h', r) -> same_originals h h') ->
  commit_item rec original k v acc h = Some (h', r) ->
  same_originals h h'.
Proof.
  intros Hrec. unfold commit_item.
  destruct v; try (intros H%dict_setitem_wrappers;
                   by apply same_originals_of_wrappers).
  - intros H%dict_delitem_wrappers. by apply same_originals_of_wrappers.
  - intros [(h3 & a & Hc & Hs)|(e & Hc & _)]%bind_inv.
    + transitivity h3; [by eapply Hrec|].
      apply dict_setitem_wrappers in Hs.
      by apply same_originals_of_wrappers.
    + by eapply Hrec.
Qed.

Lemma commit_same_originals fuel self h h' r :
  commit fuel self h = Some (h', r) -> same_originals h h'.
Proof.
  revert self h h' r. induction fuel as [|fuel IH]; intros self h h' r;
    [done|].
  simpl. intros [(h0 & td & Htd & Hrun)|(e & Htd & _)]%bind_inv.
  2:{ by apply the_wrapper_inv in Htd as (? & _ & _ & ?). }
  apply the_wrapper_inv in Htd as (? & _ & -> & _).
  assert (forall acc h1 h2 r',
            for_items (_overlay td)
              (commit_item (commit fuel) (_original td)) acc h1
            = Some (h2, r') ->
            same_originals h1 h2) as Hloop.
  { apply for_items_preserves; [apply _|].
    intros k v acc h1 h2 r' _. by apply commit_item_same_originals. }
  apply bind_inv in Hrun as [(h1 & a & Hl & Hrest)|(e & Hl & _)].
  - apply bind_inv in Hrest as [(h2 & a' & Hu & Hret)|(e & Hu & _)].
    + injection Hret as <- <-. transitivity h1; [by eapply Hloop|].
      by eapply update_overlay_same_originals.
    + transitivity h1; [by eapply Hloop|].
      by eapply update_overlay_same_originals.
  - by eapply Hloop.
Qed.

(** A commit that returns has emptied the overlay of its wrapper and
    returns the reference to the base dict. *)
Lemma commit_returns fuel self h h' r :
  commit fuel self h = Some (h', Ret r) ->
  exists td,
    wrappers h !! self = Some td
    /\ r = VDict (_original td)
    /\ wrappers h' !! self = Some (TD (_original td) []).
Proof.
  destruct fuel as [|fuel]; [done|]. simpl.
  intros (h0 & td & Htd & Hrun)%bind_ret_inv.
  apply the_wrapper_inv in Htd as (td0 & Hself & -> & [= ->]).
  exists td0.
  apply bind_ret_inv in Hrun as (h1 & [] & Hloop & Hrest).
  apply bind_ret_inv in Hrest as (h2 & [] & Hu & Hret).
  injection Hret as <- <-. split; [done|]. split; [done|].
  assert (same_originals h h1) as Hsame.
  { revert Hloop. apply for_items_preserves; [apply _|].
    intros k v acc h3 h4 r' _. apply commit_item_same_originals.
    intros w h5 h6 r''. apply commit_same_originals. }
  specialize (Hsame self). rewrite Hself in Hsame.
  injection Hu as <-. simpl. rewrite list_lookup_alter_eq.
  destruct (wrappers h1 !! self) as [td1|]; [|done].
  simpl in *. by injection Hsame as ->.
Qed.

(** C6.  [commit] is idempotent: after a commit that returned, the
    overlay of the wrapper is empty, and a second commit (with any fuel
    for its own activation) returns the same reference to the base and
    leaves the whole store, hence the base dict, as the first commit left
    it. *)
Theorem commit_twice_is_noop (fuel fuel' : nat) (self : loc) (h h' : heap)
    (r : val) :
  commit fuel self h = Some (h', Ret r) ->
  (exists b, r = VDict b /\ wrappers h' !! self = Some (TD b []))
  /\ commit (S fuel') self h' = Some (h', Ret r).
Proof.
  intros (td & _ & -> & Hself')%commit_returns. split; [by eexists|].
  simpl. run_py. rewrite Hself'. simpl. do 2 f_equal.
  destruct h' as [ds ws]. simpl in *. f_equal.
  apply list_eq. intros i. rewrite list_lookup_alter.
  case_decide; [subst|done]. by rewrite Hself'.
Qed.

Lemma commit_twice_is_noop_witness :
  let h' := Heap [[(KStr "a", VInt 1); (KStr "n", VDict 1);
                   (KStr "o", VInt 5)];
                  [(KStr "p", VInt 1)]] [TD 0 []] in
  (exists b, VDict 0 = VDict b /\ wrappers h' !! 0 = Some (TD b []))
  /\ commit 1 0 h' = Some (h', Ret (VDict 0)).
Proof.
  exact (commit_twice_is_noop 1 0 0 example_heap _ (VDict 0) eq_refl).
Defined.

(** ** [abort] never raises *)

Lemma for_items_never_raises {V A} (items : list (key * V))
    (body : key -> V -> A -> M A) :
  (forall k v acc h h' e, body k v acc h <> Some (h', Raise e)) ->
  forall acc h h' e, for_items items body acc h <> Some (h', Raise e).
Proof.
  intros Hbody. induction items as [|[k v] items IH]; intros acc h h' e;
    simpl; [done|].
  intros [(h1 & a & _ & Hrest)|(e' & Hb & _)]%bind_inv.
  - by eapply IH.
  - by eapply Hbody.
Qed.

Lemma abort_never_raises fuel self h h' e :
  abort fuel self h <> Some (h', Raise e).
Proof.
  revert self h h' e. induction fuel as [|fuel IH]; intros self h h' e;
    [done|].
  simpl. intros [(h0 & td & Htd & Hrun)|(e' & Htd & _)]%bind_inv.
  2:{ by apply the_wrapper_inv in Htd as (? & _ & _ & ?). }
  apply bind_inv in Hrun as [(h1 & a & Hl & Hrest)|(e' & Hl & _)].
  - by apply bind_inv in Hrest as [(? & ? & _ & ?)|(? & ? & _)].
  - revert Hl. apply for_items_never_raises.
    intros k v acc h2 h3 e2. unfold abort_item. destruct v; try done.
    intros [(? & ? & _ & ?)|(? & Ha & _)]%bind_inv; [done|].
    by eapply IH.
Qed.

(** ** The context manager *)




(** The handler names [Exception]: an exception of the block that is not
    an instance of it (KeyboardInterrupt, SystemExit) passes through, and
    neither [commit] nor [abort] runs. *)
Lemma transaction_other_exception_passes fuel scope h b h1 t h2 e :
  __init__ b h = Some (h1, Ret t) ->
  scope t h1 = Some (h2, Raise e) ->
  is_Exception e = false ->
  transaction fuel (VDict b) scope h = Some (h2, Raise e).
Proof.
  intros [= <- <-] Hscope He. unfold transaction, bind at 1.
  unfold __init__ at 1. unfold try_except_Exception. unfold bind at 1.
  by rewrite Hscope, He.
Qed.

(** ** Scripts of get, set and delete *)

(** *** No call of a script touches a dict *)

Lemma getitem_dicts self k h h' r :
  __getitem__ self k h = Some (h', r) -> dicts h' = dicts h.
Proof.
  unfold __getitem__. run_py.
  destruct (wrappers h !! self) as [td|]; [|done].
  destruct (PyDict.get (_overlay td) k) as [item|].
  { destruct (is_Undefined item); by intros [= <- <-]. }
  destruct (dicts h !! _original td) as [B|]; [|done].
  destruct (PyDict.get B k) as [[]|]; by intros [= <- <-].
Qed.

Lemma setitem_dicts self k v h h' r :
  __setitem__ self k v h = Some (h', r) -> dicts h' = dicts h.
Proof.
  unfold __setitem__. run_py.
  destruct (wrappers h !! self) as [td|]; [|done]. by intros [= <- <-].
Qed.

Lemma delitem_dicts self k h h' r :
  __delitem__ self k h = Some (h', r) -> dicts h' = dicts h.
Proof.
  unfold __delitem__. run_py.
  destruct (wrappers h !! self) as [td|]; [|done].
  destruct (dicts h !! _original td) as [B|]; [|done].
  destruct (PyDict.contains k B); [by intros [= <- <-]|].
  destruct (PyDict.contains k (_overlay td)); by intros [= <- <-].
Qed.

Lemma run_op_dicts o h h' r :
  run_op o h = Some (h', r) -> dicts h' = dicts h.
Proof.
  destruct o as [w k|w k v|w k]; simpl.
  - intros [(h1 & a & Hg & [= <- <-])|(e & Hg & _)]%bind_inv;
      by eapply getitem_dicts.
  - apply setitem_dicts.
  - apply delitem_dicts.
Qed.

Lemma run_ops_dicts ops h h' :
  run_ops ops h = Some h' -> dicts h' = dicts h.
Proof.
  revert h. induction ops as [|o ops IH]; intros h; simpl.
  - by intros [= <-].
  - destruct (run_op o h) as [[h1 r]|] eqn:Ho; [|done].
    intros Hrest. rewrite (IH _ Hrest). by eapply run_op_dicts.
Qed.

(** *** Scripts keep the wrappers well nested *)

Lemma keys_set_elem {V} (d : list (key * V)) k v k' :
  k' ∈ PyDict.keys (PyDict.set d k v) -> k' ∈ PyDict.keys d \/ k' = k.
Proof.
  unfold PyDict.keys. intros ([k0 v0] & -> & Hin)%list_elem_of_fmap.
  apply PyDictFacts.elem_set in Hin as [Hin|[-> _]]; [left|by right].
  apply list_elem_of_fmap. by exists (k0, v0).
Qed.

Lemma NoDup_keys_set {V} (d : list (key * V)) k v :
  NoDup (PyDict.keys d) -> NoDup (PyDict.keys (PyDict.set d k v)).
Proof.
  unfold PyDict.keys. induction d as [|[k0 v0] d IH]; simpl.
  - intros _. apply NoDup_singleton.
  - intros [Hk0 Hd]%NoDup_cons. destruct (decide (k0 = k)) as [->|Hne]; simpl.
    + by apply NoDup_cons.
    + apply NoDup_cons. split; [|by apply IH].
      intros [Hin| ->]%keys_set_elem; done.
Qed.

Lemma NoDup_keys_del {V} (d : list (key * V)) k :
  NoDup (PyDict.keys d) -> NoDup (PyDict.keys (PyDict.del d k)).
Proof.
  unfold PyDict.keys. induction d as [|[k0 v0] d IH]; simpl; [done|].
  intros [Hk0 Hd]%NoDup_cons. destruct (decide (k0 = k)) as [->|Hne]; simpl.
  - by apply IH.
  - apply NoDup_cons. split; [|by apply IH].
    intros ([k1 v1] & Heq & Hin)%list_elem_of_fmap. simpl in Heq. subst k1.
    apply PyDictFacts.elem_del in Hin. apply Hk0.
    apply list_elem_of_fmap. by exists (k0, v1).
Qed.

Lemma well_nested_init h m :
  well_nested h -> is_Some (dicts h !! m) ->
  well_nested (Heap (dicts h) (wrappers h ++ [TD m []])).
Proof.
  intros Hwn Hm w td. simpl. rewrite length_app. simpl.
  destruct (decide (w < length (wrappers h))) as [Hlt|Hge].
  - rewrite lookup_app_l by done. intros Hw.
    destruct (Hwn w td Hw) as (Ho & Hnd & Hnest). split; [done|].
    split; [done|]. intros k w' Hin. specialize (Hnest k w' Hin). lia.
  - rewrite lookup_app_r by lia.
    destruct (w - length (wrappers h)) as [|i] eqn:Hi; simpl; [|done].
    intros [= <-]. simpl. split; [done|]. split; [apply NoDup_nil_2|].
    intros k w' Hin. by apply elem_of_nil in Hin.
Qed.

Lemma well_nested_update_overlay w f h td :
  well_nested h -> wrappers h !! w = Some td ->
  NoDup (PyDict.keys (f (_overlay td))) ->
  (forall k w', (k, VTrans w') ∈ f (_overlay td) ->
     w < w' < length (wrappers h)) ->
  well_nested
    (Heap (dicts h)
       (alter (fun td => TD (_original td) (f (_overlay td))) w
          (wrappers h))).
Proof.
  intros Hwn Hw Hnd Hnest w0 td0. simpl. rewrite length_alter.
  rewrite list_lookup_alter. case_decide as Heq.
  - subst w0. rewrite Hw. simpl. intros [= <-]. simpl.
    split; [by apply (Hwn w td Hw)|]. by split.
  - apply Hwn.
Qed.

Lemma plain_data_dicts h h' :
  dicts h' = dicts h -> plain_data h -> plain_data h'.
Proof. unfold plain_data. intros ->. done. Qed.

Lemma setitem_well_nested self k v h h' r :
  isinstance_TransactionalDict v = false ->
  well_nested h -> __setitem__ self k v h = Some (h', r) -> well_nested h'.
Proof.
  intros Hv Hwn. unfold __setitem__. run_py.
  destruct (wrappers h !! self) as [td|] eqn:Hself; [|done].
  intros [= <- <-]. destruct (Hwn self td Hself) as (_ & Hnd & Hnest).
  apply (well_nested_update_overlay self (fun o => PyDict.set o k v) h td);
    [done|done| |].
  - by apply NoDup_keys_set.
  - intros k' w' [Hin|[_ Heq]]%PyDictFacts.elem_set.
    + by eapply Hnest.
    + by subst v.
Qed.

Lemma delitem_well_nested self k h h' r :
  well_nested h -> __delitem__ self k h = Some (h', r) -> well_nested h'.
Proof.
  intros Hwn. unfold __delitem__. run_py.
  destruct (wrappers h !! self) as [td|] eqn:Hself; [|done].
  destruct (dicts h !! _original td) as [B|]; [|done].
  destruct (Hwn self td Hself) as (_ & Hnd & Hnest).
  destruct (PyDict.contains k B).
  { intros [= <- <-].
    apply (well_nested_update_overlay self
             (fun o => PyDict.set o k VUndefined) h td); [done|done| |].
    - by apply NoDup_keys_set.
    - intros k' w' [Hin|[_ [=]]]%PyDictFacts.elem_set. by eapply Hnest. }
  destruct (PyDict.contains k (_overlay td)); intros [= <- <-]; [|done].
  apply (well_nested_update_overlay self (fun o => PyDict.del o k) h td);
    [done|done| |].
  - by apply NoDup_keys_del.
  - intros k' w' Hin%PyDictFacts.elem_del. by eapply Hnest.
Qed.

Lemma getitem_well_nested self k h h' r :
  plain_data h -> well_nested h ->
  __getitem__ self k h = Some (h', r) -> well_nested h'.
Proof.
  intros Hpd Hwn. unfold __getitem__. run_py.
  destruct (wrappers h !! self) as [td|] eqn:Hself; [|done].
  destruct (PyDict.get (_overlay td) k) as [item|].
  { destruct (is_Undefined item); by intros [= <- <-]. }
  destruct (dicts h !! _original td) as [B|] eqn:HB; [|done].
  destruct (PyDict.get B k) as [item|] eqn:Hitem; [|by intros [= <- <-]].
  destruct (Hwn self td Hself) as (_ & Hnd & Hnest).
  pose proof (lookup_lt_Some _ _ _ Hself) as Hlt.
  pose proof (Hpd _ _ _ _ HB (PyDictFacts.get_Some_elem _ _ _ Hitem)) as Hv.
  assert (forall v, isinstance_TransactionalDict v = false ->
            well_nested
              (Heap (dicts h)
                 (alter (fun td => TD (_original td)
                                      (PyDict.set (_overlay td) k v))
                    self (wrappers h)))) as Hplain.
  { intros v Hvv.
    apply (well_nested_update_overlay self (fun o => PyDict.set o k v) h td);
      [done|done| |].
    - by apply NoDup_keys_set.
    - intros k' w' [Hin|[_ Heq]]%PyDictFacts.elem_set; [by eapply Hnest|].
      by subst v. }
  destruct item as [| | | |m|w']; simpl; try (intros [= <- <-]; by apply Hplain).
  - intros [= <- <-].
    apply (well_nested_update_overlay self
             (fun o => PyDict.set o k (VTrans (length (wrappers h))))
             (Heap (dicts h) (wrappers h ++ [TD m []])) td).
    + by apply well_nested_init.
    + simpl. by rewrite lookup_app_l.
    + by apply NoDup_keys_set.
    + simpl. rewrite length_app. simpl.
      intros k' w' [Hin|[_ [= ->]]]%PyDictFacts.elem_set; [|lia].
      specialize (Hnest k' w' Hin). lia.
Qed.

Lemma run_op_well_nested o h h' r :
  plain_op o -> plain_data h -> well_nested h ->
  run_op o h = Some (h', r) -> well_nested h'.
Proof.
  destruct o as [w k|w k v|w k]; simpl; intros Hp Hpd Hwn.
  - intros [(h1 & a & Hg & [= <- <-])|(e & Hg & _)]%bind_inv;
      by eapply getitem_well_nested.
  - by apply setitem_well_nested.
  - by apply delitem_well_nested.
Qed.

Lemma run_ops_well_nested ops h h' :
  Forall plain_op ops -> plain_data h -> well_nested h ->
  run_ops ops h = Some h' -> well_nested h'.
Proof.
  revert h. induction ops as [|o ops IH]; intros h Hp Hpd Hwn; simpl.
  - by intros [= <-].
  - apply Forall_cons in Hp as [Ho Hp].
    destruct (run_op o h) as [[h1 r]|] eqn:Hrun; [|done].
    apply IH; [done| |by eapply run_op_well_nested].
    eapply plain_data_dicts; [|done]. by eapply run_op_dicts.
Qed.

(** *** [abort] returns on well nested wrappers *)

#[global] Instance cleared_preorder : PreOrder cleared.
Proof.
  split.
  - intros h. split; [done|]. split; [done|]. intros w td Hw.
    exists td. auto.
  - intros h1 h2 h3 (Hd12 & Hl12 & H12) (Hd23 & Hl23 & H23).
    split; [congruence|]. split; [congruence|]. intros w td3 Hw3.
    destruct (H23 w td3 Hw3) as (td2 & Hw2 & Ho23 & Hov23).
    destruct (H12 w td2 Hw2) as (td1 & Hw1 & Ho12 & Hov12).
    exists td1. split; [done|]. split; [congruence|].
    destruct Hov23 as [-> | ->]; [done|by right].
Qed.

Lemma cleared_well_nested h h' :
  cleared h h' -> well_nested h -> well_nested h'.
Proof.
  intros (Hd & Hl & Hc) Hwn w td' Hw'.
  destruct (Hc w td' Hw') as (td & Hw & Ho & Hov).
  destruct (Hwn w td Hw) as (Hb & Hnd & Hnest).
  rewrite Hd, Hl, Ho. split; [done|].
  destruct Hov as [-> | ->]; [by split|].
  split; [apply NoDup_nil_2|]. intros k w' Hin. by apply elem_of_nil in Hin.
Qed.

Lemma cleared_empty_overlay w h :
  cleared h
    (Heap (dicts h)
       (alter (fun td => TD (_original td) []) w (wrappers h))).
Proof.
  split; [done|]. split; [simpl; by rewrite length_alter|].
  intros w0 td0. simpl. rewrite list_lookup_alter. case_decide as Heq.
  - subst w0. destruct (wrappers h !! w) as [td|]; [|done].
    intros [= <-]. exists td. simpl. auto.
  - intros Hw0. exists td0. auto.
Qed.

Lemma abort_loop_terminates (rec : loc -> M val) self len items :
  (forall w' h td', self < w' -> well_nested h ->
     length (wrappers h) = len -> wrappers h !! w' = Some td' ->
     exists h' r, rec w' h = Some (h', Ret r) /\ cleared h h') ->
  (forall k w', (k, VTrans w') ∈ items -> self < w' < len) ->
  forall h, well_nested h -> length (wrappers h) = len ->
    exists h', for_items items (abort_item rec) tt h = Some (h', Ret tt)
               /\ cleared h h'.
Proof.
  intros Hrec. induction items as [|[k v] items IH]; intros Hitems h Hwn Hlen.
  { exists h. split; [done|reflexivity]. }
  assert (exists h1, abort_item rec k v tt h = Some (h1, Ret tt)
                     /\ cleared h h1) as (h1 & Hitem & Hc1).
  { destruct v as [| | | |m|w']; try (exists h; split; [done|reflexivity]).
    assert (self < w' < len) as Hw'
      by (apply (Hitems k); apply list_elem_of_here).
    destruct (lookup_lt_is_Some_2 (wrappers h) w') as [td' Htd']; [lia|].
    destruct (Hrec w' h td') as (h1 & r & Hr & Hc); [lia|done|done|done|].
    exists h1. split; [|done]. unfold abort_item, bind. by rewrite Hr. }
  destruct (IH (fun k' w' Hin =>
                  Hitems k' w' (list_elem_of_further _ _ _ Hin)) h1)
    as (h2 & Hrest & Hc2).
  - by eapply cleared_well_nested.
  - destruct Hc1 as (_ & Hl & _). congruence.
  - exists h2. split; [|by transitivity h1].
    simpl. unfold bind at 1. by rewrite Hitem.
Qed.

Lemma abort_terminates fuel self h td :
  well_nested h -> wrappers h !! self = Some td ->
  length (wrappers h) - self <= fuel ->
  exists h', abort fuel self h = Some (h', Ret (VDict (_original td)))
             /\ cleared h h'.
Proof.
  revert self h td. induction fuel as [|fuel IH]; intros self h td Hwn Hself Hfuel.
  { apply lookup_lt_Some in Hself. lia. }
  destruct (Hwn self td Hself) as (_ & _ & Hnest).
  destruct (abort_loop_terminates (abort fuel) self (length (wrappers h))
              (_overlay td)) with (h := h) as (h1 & Hloop & Hc1);
    [|done|done|done|].
  { intros w' h0 td' Hlt Hwn0 Hlen0 Htd'.
    destruct (IH w' h0 td' Hwn0 Htd') as (h' & Ha & Hc); [lia|]. eauto. }
  eexists. split.
  - simpl. unfold bind at 1, the_wrapper. rewrite Hself.
    unfold bind at 1. rewrite Hloop. reflexivity.
  - transitivity h1; [done|]. apply cleared_empty_overlay.
Qed.

(** *** Scripts keep every wrapper over its base *)

#[global] Instance extends_preorder : PreOrder extends.
Proof.
  split.
  - intros h w td Hw. by exists td.
  - intros h1 h2 h3 H12 H23 w td1 Hw1.
    destruct (H12 w td1 Hw1) as (td2 & Hw2 & Ho2).
    destruct (H23 w td2 Hw2) as (td3 & Hw3 & Ho3).
    exists td3. split; [done|congruence].
Qed.

Lemma extends_update_overlay w f h :
  extends h
    (Heap (dicts h)
       (alter (fun td => TD (_original td) (f (_overlay td))) w
          (wrappers h))).
Proof.
  intros w0 td0 Hw0. simpl. rewrite list_lookup_alter. case_decide as Heq.
  - subst w0. rewrite Hw0. simpl. by eexists.
  - by exists td0.
Qed.

Lemma extends_init m h :
  extends h (Heap (dicts h) (wrappers h ++ [TD m []])).
Proof.
  intros w td Hw. exists td. simpl. split; [|done].
  by apply lookup_app_l_Some.
Qed.

Lemma getitem_extends self k h h' r :
  __getitem__ self k h = Some (h', r) -> extends h h'.
Proof.
  unfold __getitem__. run_py.
  destruct (wrappers h !! self) as [td|]; [|done].
  destruct (PyDict.get (_overlay td) k) as [item|].
  { destruct (is_Undefined item); intros [= <- <-]; reflexivity. }
  destruct (dicts h !! _original td) as [B|]; [|done].
  destruct (PyDict.get B k) as [[| | | |m|w']|]; intros [= <- <-];
    try reflexivity;
    try apply (extends_update_overlay self (fun o => PyDict.set o k _)).
  etransitivity; [apply (extends_init m)|].
  apply (extends_update_overlay self
           (fun o => PyDict.set o k (VTrans (length (wrappers h))))
           (Heap (dicts h) (wrappers h ++ [TD m []]))).
Qed.

Lemma setitem_extends self k v h h' r :
  __setitem__ self k v h = Some (h', r) -> extends h h'.
Proof.
  unfold __setitem__. run_py.
  destruct (wrappers h !! self) as [td|]; [|done]. intros [= <- <-].
  apply (extends_update_overlay self (fun o => PyDict.set o k v)).
Qed.

Lemma delitem_extends self k h h' r :
  __delitem__ self k h = Some (h', r) -> extends h h'.
Proof.
  unfold __delitem__. run_py.
  destruct (wrappers h !! self) as [td|]; [|done].
  destruct (dicts h !! _original td) as [B|]; [|done].
  destruct (PyDict.contains k B).
  { intros [= <- <-].
    apply (extends_update_overlay self (fun o => PyDict.set o k VUndefined)). }
  destruct (PyDict.contains k (_overlay td)); intros [= <- <-];
    [|reflexivity].
  apply (extends_update_overlay self (fun o => PyDict.del o k)).
Qed.

Lemma run_op_extends o h h' r : run_op o h = Some (h', r) -> extends h h'.
Proof.
  destruct o as [w k|w k v|w k]; simpl.
  - intros [(h1 & a & Hg & [= <- <-])|(e & Hg & _)]%bind_inv;
      by eapply getitem_extends.
  - apply setitem_extends.
  - apply delitem_extends.
Qed.

Lemma run_ops_extends ops h h' : run_ops ops h = Some h' -> extends h h'.
Proof.
  revert h. induction ops as [|o ops IH]; intros h; simpl.
  - intros [= <-]. reflexivity.
  - destruct (run_op o h) as [[h1 r]|] eqn:Ho; [|done].
    intros Hrest. transitivity h1; [by eapply run_op_extends|by apply IH].
Qed.

(** C1.  Let [t] be a new wrapper over the dict [B] at [b].  Whatever
    gets, sets and deletes are then called on [t] and on the wrappers
    that gets return, with any values, no dict of the store is touched;
    in particular [B] is as it was.  When the store holds plain data and
    the calls stage scalars and dicts, [abort] on [t] returns (given fuel
    for the depth of the nesting) the reference to [B], and [B], like
    every other dict, is equal to what it was before [t] was created. *)
Theorem base_unchanged_until_abort (h0 : heap) (b : loc) (B : pydict)
    (ops : list op) (h1 h2 : heap) (t : loc) :
  dicts h0 !! b = Some B ->
  __init__ b h0 = Some (h1, Ret t) ->
  run_ops ops h1 = Some h2 ->
  dicts h2 = dicts h0
  /\ dicts h2 !! b = Some B
  /\ (plain_data h0 -> well_nested h0 -> Forall plain_op ops ->
      forall fuel, length (wrappers h2) - t <= fuel ->
        exists h3, abort fuel t h2 = Some (h3, Ret (VDict b))
                   /\ dicts h3 = dicts h0
                   /\ dicts h3 !! b = Some B).
Proof.
  intros HB [= <- <-] Hrun.
  pose proof (run_ops_dicts _ _ _ Hrun) as Hd. simpl in Hd.
  split; [done|]. split; [by rewrite Hd|].
  intros Hpd Hwn Hplain fuel Hfuel.
  set (h1 := Heap (dicts h0) (wrappers h0 ++ [TD b []])) in *.
  assert (well_nested h1) as Hwn1 by (by apply well_nested_init).
  assert (well_nested h2) as Hwn2.
  { eapply run_ops_well_nested; [done| |done|done].
    by apply (plain_data_dicts h0). }
  destruct (run_ops_extends _ _ _ Hrun (length (wrappers h0)) (TD b []))
    as (td & Ht & Ho).
  { unfold h1. simpl. by rewrite lookup_app_r, Nat.sub_diag by lia. }
  destruct (abort_terminates fuel _ h2 td Hwn2 Ht Hfuel)
    as (h3 & Habort & Hd3 & _).
  exists h3. simpl in Ho. rewrite Ho in Habort.
  split; [done|]. split; [congruence|]. by rewrite Hd3, Hd.
Qed.

Lemma no_wrappers_well_nested h : wrappers h = [] -> well_nested h.
Proof. intros Hw w td. by rewrite Hw. Qed.

Lemma example_data_plain : plain_data example_data.
Proof.
  intros b d k v Hb Hin. destruct b as [|[|b]]; simplify_eq/=.
  - unfold example_base in Hin.
    repeat (apply elem_of_cons in Hin as [Hin|Hin]; simplify_eq/=);
      try done.
    by apply elem_of_nil in Hin.
  - repeat (apply elem_of_cons in Hin as [Hin|Hin]; simplify_eq/=);
      try done.
    by apply elem_of_nil in Hin.
Qed.

Lemma base_unchanged_until_abort_witness :
  exists h2,
    run_ops example_script (Heap (dicts example_data) [TD 0 []]) = Some h2
    /\ dicts h2 = dicts example_data
    /\ dicts h2 !! 0 = Some example_base
    /\ exists h3, abort 2 0 h2 = Some (h3, Ret (VDict 0))
                  /\ dicts h3 = dicts example_data
                  /\ dicts h3 !! 0 = Some example_base.
Proof.
  eexists. split; [reflexivity|].
  destruct (base_unchanged_until_abort example_data 0 example_base
              example_script _ _ 0 eq_refl eq_refl eq_refl)
    as (Hdicts & Hbase & Habort).
  split; [exact Hdicts|]. split; [exact Hbase|].
  apply Habort.
  - exact example_data_plain.
  - apply no_wrappers_well_nested. reflexivity.
  - repeat constructor.
  - simpl. lia.
Defined.

(** ** [diff] *)

(** [diff] reads the store and leaves it as it is. *)
Lemma diff_pure fuel self h h' r :
  diff fuel self h = Some (h', r) -> h' = h.
Proof.
  revert self h h' r. induction fuel as [|fuel IH]; intros self h h' r;
    [done|].
  simpl. intros [(h0 & td & Htd & Hrun)|(e & Htd & _)]%bind_inv.
  2:{ by apply the_wrapper_inv in Htd as (? & _ & _ & ?). }
  apply the_wrapper_inv in Htd as (_ & _ & -> & _). revert Hrun.
  assert (PreOrder (fun h h' : heap => h' = h)) as Hpre.
  { split; [done|]. intros h1 h2 h3 -> ->. done. }
  apply (for_items_preserves (fun h h' : heap => h' = h)).
  intros k v acc h1 h2 r' _. unfold diff_item.
  destruct v; try (unfold bind, the_dict, ret;
                   destruct (dicts h1 !! _original td);
                   by intros [= <- <-]).
  intros [(h3 & a & Hd & [= <- <-])|(e & Hd & _)]%bind_inv; by eapply IH.
Qed.

Lemma get_not_in_keys {V} (d : list (key * V)) k :
  k ∉ PyDict.keys d -> PyDict.get d k = None.
Proof.
  unfold PyDict.keys. induction d as [|[k0 v0] d IH]; simpl; [done|].
  intros Hnin. apply not_elem_of_cons in Hnin as [Hne Hnin].
  rewrite decide_False by done. by apply IH.
Qed.

(** The loop of [diff] over [items], from the partial diff [acc]: keys
    that [items] does not have keep their entry of [acc], and every item
    gets its pair or its nested diff. *)
Lemma diff_loop (rec : loc -> M (list (key * diffval))) td B h items :
  dicts h !! _original td = Some B ->
  NoDup (PyDict.keys items) ->
  (forall k w', (k, VTrans w') ∈ items ->
     exists d', rec w' h = Some (h, Ret d')) ->
  forall acc,
    exists d,
      for_items items (diff_item rec td) acc h = Some (h, Ret d)
      /\ (forall k, PyDict.get items k = None ->
            PyDict.get d k = PyDict.get acc k)
      /\ (forall k v, PyDict.get items k = Some v ->
            isinstance_TransactionalDict v = false ->
            PyDict.get d k
            = Some (DPair (PyDict.get_default B k VUndefined)
                          (PyDict.get_default (_overlay td) k VUndefined)))
      /\ (forall k w', PyDict.get items k = Some (VTrans w') ->
            exists d', rec w' h = Some (h, Ret d')
                       /\ PyDict.get d k = Some (DNested d')).
Proof.
  intros HB. induction items as [|[k0 v0] items IH]; intros Hnd Hrec acc.
  { exists acc. simpl. repeat split; try done. }
  unfold PyDict.keys in Hnd. simpl in Hnd.
  apply NoDup_cons in Hnd as [Hk0 Hnd].
  assert (exists x, diff_item rec td k0 v0 acc h
                    = Some (h, Ret (PyDict.set acc k0 x))
                    /\ (isinstance_TransactionalDict v0 = false ->
                        x = DPair (PyDict.get_default B k0 VUndefined)
                              (PyDict.get_default (_overlay td) k0
                                 VUndefined))
                    /\ (forall w', v0 = VTrans w' ->
                          exists d', rec w' h = Some (h, Ret d')
                                     /\ x = DNested d'))
    as (x & Hitem & Hpair & Hnested).
  { unfold diff_item.
    destruct v0 as [| | | |m|w'];
      try (eexists; unfold bind, the_dict, ret; rewrite HB;
           split; [reflexivity|]; split; [done|]; by intros w' [=]).
    destruct (Hrec k0 w') as [d' Hd']; [apply list_elem_of_here|].
    exists (DNested d'). unfold bind, ret. rewrite Hd'.
    split; [done|]. split; [done|]. intros w'' [= <-]. by exists d'. }
  destruct (IH Hnd (fun k w' Hin =>
                      Hrec k w' (list_elem_of_further _ _ _ Hin))
              (PyDict.set acc k0 x))
    as (d & Hloop & Hnone & Hsome & Htrans).
  exists d. split.
  { simpl. unfold bind at 1. by rewrite Hitem. }
  pose proof (get_not_in_keys items k0 Hk0) as Hitems0.
  split; [|split].
  - intros k. simpl. destruct (decide (k0 = k)) as [->|Hne]; [done|].
    intros Hk. rewrite (Hnone k Hk). by apply PyDictFacts.get_set_ne.
  - intros k v. simpl. destruct (decide (k0 = k)) as [->|Hne].
    + intros [= ->] Hv. rewrite (Hnone k Hitems0).
      rewrite PyDictFacts.get_set_eq. f_equal. by apply Hpair.
    + by apply Hsome.
  - intros k w'. simpl. destruct (decide (k0 = k)) as [->|Hne].
    + intros [= ->]. destruct (Hnested w' eq_refl) as (d' & Hd' & ->).
      exists d'. split; [done|]. rewrite (Hnone k Hitems0).
      by rewrite PyDictFacts.get_set_eq.
    + by apply Htrans.
Qed.

(** On well nested wrappers [diff] returns, given fuel for the depth of
    the nesting: an overlay entry that is not a wrapper is reported as
    the pair of the base value (or [Undefined]) and the entry, a wrapper
    as its own diff, and nothing else is reported. *)
Lemma diff_terminates fuel self h td B :
  well_nested h -> wrappers h !! self = Some td ->
  dicts h !! _original td = Some B ->
  length (wrappers h) - self <= fuel ->
  exists d,
    diff fuel self h = Some (h, Ret d)
    /\ (forall k, PyDict.get (_overlay td) k = None -> PyDict.get d k = None)
    /\ (forall k v, PyDict.get (_overlay td) k = Some v ->
          isinstance_TransactionalDict v = false ->
          PyDict.get d k
          = Some (DPair (PyDict.get_default B k VUndefined) v))
    /\ (forall k w', PyDict.get (_overlay td) k = Some (VTrans w') ->
          exists d', diff (pred fuel) w' h = Some (h, Ret d')
                     /\ PyDict.get d k = Some (DNested d')).
Proof.
  revert self td B. induction fuel as [|fuel IH]; intros self td B Hwn Hself HB Hfuel.
  { apply lookup_lt_Some in Hself. lia. }
  destruct (Hwn self td Hself) as (_ & Hnd & Hnest).
  destruct (diff_loop (diff fuel) td B h (_overlay td) HB Hnd) with (acc := @nil (key * diffval))
    as (d & Hloop & Hnone & Hsome & Htrans).
  { intros k w' Hin. destruct (Hnest k w' Hin) as [Hlt Hlen].
    destruct (lookup_lt_is_Some_2 (wrappers h) w' Hlen) as [td' Htd'].
    destruct (Hwn w' td' Htd') as ([B' HB'] & _).
    destruct (IH w' td' B' Hwn Htd' HB') as (d' & Hd' & _); [lia|].
    by exists d'. }
  exists d. split.
  { simpl. unfold bind, the_wrapper. by rewrite Hself. }
  split; [|split].
  - intros k Hk. by rewrite (Hnone k Hk).
  - intros k v Hk Hv. rewrite (Hsome k v Hk Hv).
    unfold PyDict.get_default at 2. by rewrite Hk.
  - intros k w' Hk. exact (Htrans k w' Hk).
Qed.

(** *** Entries of an overlay that a script leaves alone *)

Lemma alter_overlay_keeps (ws : list TransactionalDict) w0
    (f : pydict -> pydict) w td k x :
  ws !! w = Some td -> PyDict.get (_overlay td) k = Some x ->
  (w0 = w -> PyDict.get (f (_overlay td)) k = Some x) ->
  exists td',
    alter (fun td => TD (_original td) (f (_overlay td))) w0 ws !! w
    = Some td'
    /\ _original td' = _original td
    /\ PyDict.get (_overlay td') k = Some x.
Proof.
  intros Hw Hk Hf. rewrite list_lookup_alter. case_decide as Heq.
  - subst w0. rewrite Hw. simpl. eexists. split; [done|]. split; [done|].
    simpl. by apply Hf.
  - by exists td.
Qed.

Lemma getitem_keeps_entry w0 k0 h h' r w td k x :
  __getitem__ w0 k0 h = Some (h', r) ->
  wrappers h !! w = Some td -> PyDict.get (_overlay td) k = Some x ->
  exists td', wrappers h' !! w = Some td'
              /\ _original td' = _original td
              /\ PyDict.get (_overlay td') k = Some x.
Proof.
  intros Hget Hw Hk. revert Hget. unfold __getitem__. run_py.
  destruct (wrappers h !! w0) as [td0|] eqn:Hw0; [|done].
  destruct (PyDict.get (_overlay td0) k0) as [item|] eqn:Hk0.
  { destruct (is_Undefined item); intros [= <- <-]; by exists td. }
  destruct (dicts h !! _original td0) as [B|]; [|done].
  assert (w0 = w -> forall v,
            PyDict.get (PyDict.set (_overlay td) k0 v) k = Some x) as Hset.
  { intros -> v. rewrite PyDictFacts.get_set_ne; [done|].
    intros ->. congruence. }
  destruct (PyDict.get B k0) as [[| | | |m|w']|]; intros [= <- <-]; simpl;
    try (by exists td);
    try (apply (alter_overlay_keeps _ w0 (fun o => PyDict.set o k0 _));
         [done|done|by intros Heq; apply Hset]).
  apply (alter_overlay_keeps _ w0
           (fun o => PyDict.set o k0 (VTrans (length (wrappers h)))));
    [by apply lookup_app_l_Some|done|by intros Heq; apply Hset].
Qed.

Lemma run_op_keeps_entry o h h' r w td k x :
  run_op o h = Some (h', r) -> leaves_key w k o ->
  wrappers h !! w = Some td -> PyDict.get (_overlay td) k = Some x ->
  exists td', wrappers h' !! w = Some td'
              /\ _original td' = _original td
              /\ PyDict.get (_overlay td') k = Some x.
Proof.
  intros Hrun Hleave Hw Hk. destruct o as [w0 k0|w0 k0 v|w0 k0]; simpl in *.
  - apply bind_inv in Hrun as [(h1 & a & Hg & [= <- <-])|(e & Hg & _)];
      by eapply getitem_keeps_entry.
  - revert Hrun. unfold __setitem__. run_py.
    destruct (wrappers h !! w0) as [td0|]; [|done]. intros [= <- <-]. simpl.
    apply (alter_overlay_keeps _ w0 (fun o => PyDict.set o k0 v));
      [done|done|].
    intros ->. rewrite PyDictFacts.get_set_ne; [done|].
    by destruct Hleave.
  - revert Hrun. unfold __delitem__. run_py.
    destruct (wrappers h !! w0) as [td0|]; [|done].
    destruct (dicts h !! _original td0) as [B|]; [|done].
    destruct (PyDict.contains k0 B).
    { intros [= <- <-]. simpl.
      apply (alter_overlay_keeps _ w0 (fun o => PyDict.set o k0 VUndefined));
        [done|done|].
      intros ->. rewrite PyDictFacts.get_set_ne; [done|].
      by destruct Hleave. }
    destruct (PyDict.contains k0 (_overlay td0)); intros [= <- <-];
      [|by exists td].
    simpl. apply (alter_overlay_keeps _ w0 (fun o => PyDict.del o k0));
      [done|done|].
    intros ->. rewrite PyDictFacts.get_del_ne; [done|].
    by destruct Hleave.
Qed.

Lemma run_ops_keeps_entry ops h h' w td k x :
  run_ops ops h = Some h' -> Forall (leaves_key w k) ops ->
  wrappers h !! w = Some td -> PyDict.get (_overlay td) k = Some x ->
  exists td', wrappers h' !! w = Some td'
              /\ _original td' = _original td
              /\ PyDict.get (_overlay td') k = Some x.
Proof.
  revert h td. induction ops as [|o ops IH]; intros h td; simpl.
  - intros [= <-] _ Hw Hk. by exists td.
  - destruct (run_op o h) as [[h1 r]|] eqn:Ho; [|done].
    intros Hrest [Hleave Hall]%Forall_cons Hw Hk.
    destruct (run_op_keeps_entry _ _ _ _ _ _ _ _ Ho Hleave Hw Hk)
      as (td1 & Hw1 & Ho1 & Hk1).
    destruct (IH h1 td1 Hrest Hall Hw1 Hk1) as (td' & Hw' & Ho' & Hk').
    exists td'. split; [done|]. split; [congruence|done].
Qed.

(** A wrapper that no call of the script is made on stays as it is. *)
Lemma run_op_keeps_wrapper o h h' r n td :
  run_op o h = Some (h', r) -> op_target o <> n ->
  wrappers h !! n = Some td -> wrappers h' !! n = Some td.
Proof.
  intros Hrun Hne Hn. destruct o as [w0 k0|w0 k0 v|w0 k0]; simpl in *.
  - apply bind_inv in Hrun as [(h1 & a & Hg & [= <- <-])|(e & Hg & _)];
      revert Hg; unfold __getitem__; run_py;
      (destruct (wrappers h !! w0) as [td0|]; [|done]);
      (destruct (PyDict.get (_overlay td0) k0) as [item|];
       [destruct (is_Undefined item); by intros [= <-]|]);
      (destruct (dicts h !! _original td0) as [B|]; [|done]);
      destruct (PyDict.get B k0) as [[| | | |m|w']|]; intros [= <-];
      simpl; try done; rewrite ?list_lookup_alter_ne by done; try done;
      by apply lookup_app_l_Some.
  - revert Hrun. unfold __setitem__. run_py.
    destruct (wrappers h !! w0) as [td0|]; [|done]. intros [= <- <-]. simpl.
    by rewrite list_lookup_alter_ne.
  - revert Hrun. unfold __delitem__. run_py.
    destruct (wrappers h !! w0) as [td0|]; [|done].
    destruct (dicts h !! _original td0) as [B|]; [|done].
    destruct (PyDict.contains k0 B);
      [intros [= <- <-]; simpl; by rewrite list_lookup_alter_ne|].
    destruct (PyDict.contains k0 (_overlay td0)); intros [= <- <-]; [|done].
    simpl. by rewrite list_lookup_alter_ne.
Qed.

Lemma run_ops_keeps_wrapper ops h h' n td :
  run_ops ops h = Some h' -> Forall (fun o => op_target o <> n) ops ->
  wrappers h !! n = Some td -> wrappers h' !! n = Some td.
Proof.
  revert h. induction ops as [|o ops IH]; intros h; simpl.
  - by intros [= <-] _ Hn.
  - destruct (run_op o h) as [[h1 r]|] eqn:Ho; [|done].
    intros Hrest [Hne Hall]%Forall_cons Hn.
    apply (IH h1 Hrest Hall). by eapply run_op_keeps_wrapper.
Qed.

(** C9.  [diff] reports keys that were only read.  Let [k] be a key of
    the base [B] that the overlay of [self] does not hold yet, with base
    value [v], in a store of plain data.  After [get(k)] and any further
    calls that stage plain values and are not a set or a delete of [k] on
    [self], [diff] returns (given fuel for the depth of the nesting) and
    - when [v] is not a dict, it has the entry [k : (v, v)];
    - when [v] is a dict, the get returned a new wrapper, and if no call
      was made on that wrapper, the entry of [k] is the empty nested
      diff. *)
Theorem diff_reports_reads (h : heap) (self : loc) (td : TransactionalDict)
    (B : pydict) (k : key) (v : val) (ops : list op) :
  plain_data h -> well_nested h ->
  wrappers h !! self = Some td ->
  dicts h !! _original td = Some B ->
  PyDict.get (_overlay td) k = None ->
  PyDict.get B k = Some v ->
  Forall plain_op ops -> Forall (leaves_key self k) ops ->
  exists h1 r,
    __getitem__ self k h = Some (h1, Ret r)
    /\ (isinstance_dict v = true ->
        exists n, r = VTrans n /\ wrappers h !! n = None)
    /\ forall h2, run_ops ops h1 = Some h2 ->
       forall fuel, length (wrappers h2) - self <= fuel ->
       exists d,
         diff fuel self h2 = Some (h2, Ret d)
         /\ (isinstance_dict v = false -> PyDict.get d k = Some (DPair v v))
         /\ (forall n, r = VTrans n ->
               Forall (fun o => op_target o <> n) ops ->
               PyDict.get d k = Some (DNested [])).
Proof.
  intros Hpd Hwn Hself HB Hk Hv Hplain Hleave.
  pose proof (lookup_lt_Some _ _ _ Hself) as Hlt.
  pose proof (getitem_miss h self td B Hself HB k v Hk Hv) as Hget.
  assert (forall w, v <> VTrans w) as Hnotrans.
  { intros w ->.
    exact (Hpd _ _ _ _ HB (PyDictFacts.get_Some_elem _ _ _ Hv)). }
  set (r := match v with
            | VDict _ => VTrans (length (wrappers h))
            | _ => v
            end).
  assert (exists h1,
            __getitem__ self k h = Some (h1, Ret r)
            /\ wrappers h1 !! self
               = Some (TD (_original td) (PyDict.set (_overlay td) k r))
            /\ (forall m, v = VDict m ->
                  wrappers h1 !! length (wrappers h) = Some (TD m [])))
    as (h1 & Hget1 & Hself1 & Hnew).
  { destruct v as [| | | |m|w]; (eexists; split; [exact Hget|]); simpl;
      (split; [apply list_lookup_insert_eq;
               rewrite ?length_app; simpl; lia|]);
      try (by intros m' [=]).
    intros m' [= <-]. rewrite list_lookup_insert_ne by lia.
    by rewrite lookup_app_r, Nat.sub_diag by lia. }
  exists h1, r. split; [done|]. split.
  { intros Hdict. destruct v; try done. eexists. split; [done|].
    by apply lookup_ge_None_2. }
  intros h2 Hrun fuel Hfuel.
  assert (well_nested h1) as Hwn1 by (by eapply getitem_well_nested).
  assert (dicts h1 = dicts h) as Hd1 by (by eapply getitem_dicts).
  assert (well_nested h2) as Hwn2.
  { eapply run_ops_well_nested; [done| |done|done].
    by apply (plain_data_dicts h). }
  destruct (run_ops_keeps_entry ops h1 h2 self _ k r Hrun Hleave Hself1)
    as (td2 & Hself2 & Ho2 & Hk2); [apply PyDictFacts.get_set_eq|].
  simpl in Ho2.
  assert (dicts h2 !! _original td2 = Some B) as HB2.
  { rewrite (run_ops_dicts _ _ _ Hrun), Hd1. by rewrite Ho2. }
  destruct (diff_terminates fuel self h2 td2 B Hwn2 Hself2 HB2 Hfuel)
    as (d & Hdiff & _ & Hpair & Hnested).
  exists d. split; [done|]. split.
  - intros Hscalar. assert (r = v) as Hr by (by destruct v). rewrite Hr in Hk2.
    rewrite (Hpair k v Hk2); [|destruct v; try done; by destruct (Hnotrans l)].
    unfold PyDict.get_default. by rewrite Hv.
  - intros n Hrn Htarget. rewrite Hrn in Hk2.
    destruct (Hnested k n Hk2) as (d' & Hd' & ->).
    destruct v as [| | | |m|w]; try done; simpl in Hrn; [|by destruct (Hnotrans w)].
    injection Hrn as <-.
    pose proof (run_ops_keeps_wrapper ops h1 h2 _ _ Hrun Htarget
                  (Hnew m eq_refl)) as Hn2.
    pose proof (lookup_lt_Some _ _ _ Hn2) as Hlt2.
    destruct fuel as [|[|fuel]]; [lia|lia|].
    simpl in Hd'. unfold bind, the_wrapper in Hd'. rewrite Hn2 in Hd'.
    simpl in Hd'. by injection Hd' as <-.
Qed.

Lemma example_heap0_well_nested : well_nested example_heap0.
Proof.
  apply (well_nested_init example_data 0).
  - by apply no_wrappers_well_nested.
  - by eexists.
Qed.

Lemma diff_reports_reads_witness :
  (exists h2 d,
     (__getitem__ 0 (KStr "a");; __getitem__ 0 (KStr "n");;
      __setitem__ 0 (KStr "z") (VInt 3)) example_heap0 = Some (h2, Ret tt)
     /\ diff 2 0 h2 = Some (h2, Ret d)
     /\ PyDict.get d (KStr "a") = Some (DPair (VInt 1) (VInt 1)))
  /\ (exists h2 d,
        (__getitem__ 0 (KStr "n");; __getitem__ 0 (KStr "a");;
         __setitem__ 0 (KStr "z") (VInt 3)) example_heap0
        = Some (h2, Ret tt)
        /\ diff 2 0 h2 = Some (h2, Ret d)
        /\ PyDict.get d (KStr "n") = Some (DNested [])).
Proof.
  split.
  - destruct (diff_reports_reads example_heap0 0 (TD 0 []) example_base
                (KStr "a") (VInt 1)
                [OpGet 0 (KStr "n"); OpSet 0 (KStr "z") (VInt 3)]
                (plain_data_dicts example_data _ eq_refl example_data_plain)
                example_heap0_well_nested eq_refl eq_refl eq_refl eq_refl)
      as (h1 & r & Hget & _ & Hafter).
    + repeat constructor.
    + apply Forall_cons. split; [exact I|].
      apply Forall_cons. split; [right; discriminate|]. apply Forall_nil_2.
    + vm_compute in Hget. injection Hget as <- <-.
      destruct (Hafter _ eq_refl 2) as (d & Hdiff & Hpair & _);
        [simpl; lia|].
      eexists _, d. split; [reflexivity|]. split; [exact Hdiff|].
      by apply Hpair.
  - destruct (diff_reports_reads example_heap0 0 (TD 0 []) example_base
                (KStr "n") (VDict 1)
                [OpGet 0 (KStr "a"); OpSet 0 (KStr "z") (VInt 3)]
                (plain_data_dicts example_data _ eq_refl example_data_plain)
                example_heap0_well_nested eq_refl eq_refl eq_refl eq_refl)
      as (h1 & r & Hget & _ & Hafter).
    + repeat constructor.
    + apply Forall_cons. split; [exact I|].
      apply Forall_cons. split; [right; discriminate|]. apply Forall_nil_2.
    + vm_compute in Hget. injection Hget as <- <-.
      destruct (Hafter _ eq_refl 2) as (d & Hdiff & _ & Hnested);
        [simpl; lia|].
      eexists _, d. split; [reflexivity|]. split; [exact Hdiff|].
      apply (Hnested 1 eq_refl). repeat constructor; simpl; lia.
Defined.

(** C9 does not hold for every nested dict that was read and never
    edited.  A read made through the wrapper of the nested dict is cached
    in the overlay of that wrapper like any other read, and [diff]
    reports it: after [self["n"]["p"]], with no set and no delete
    anywhere, the dicts are unchanged and the entry of ["n"] is the
    nested diff [{"p": (1, 1)}], not the empty one. *)
Lemma diff_nested_read_is_reported :
  exists h2 d,
    (do nested <- __getitem__ 0 (KStr "n");
     match nested with
     | VTrans n => __getitem__ n (KStr "p")
     | _ => ret nested
     end) example_heap0 = Some (h2, Ret (VInt 1))
    /\ dicts h2 = dicts example_heap0
    /\ diff 2 0 h2 = Some (h2, Ret d)
    /\ PyDict.get d (KStr "n")
       = Some (DNested [(KStr "p", DPair (VInt 1) (VInt 1))])
    /\ PyDict.get d (KStr "n") <> Some (DNested []).
Proof.
  eexists _, _. split; [reflexivity|]. split; [reflexivity|].
  split; [reflexivity|]. split; [reflexivity|]. discriminate.
Qed.

(** ** A dict that is set is staged as it is *)

Lemma well_nested_update_dict b f h :
  well_nested h -> well_nested (Heap (alter f b (dicts h)) (wrappers h)).
Proof.
  intros Hwn w td Hw. destruct (Hwn w td Hw) as ([B HB] & Hnd & Hnest).
  simpl. split; [|by split].
  destruct (decide (b = _original td)) as [->|Hne].
  - rewrite list_lookup_alter_eq, HB. by eexists.
  - rewrite list_lookup_alter_ne, HB by done. by eexists.
Qed.

(** C10.  Only dicts read from the base are wrapped.  After
    [set(k, m)] with a dict [m], [get(k)] returns [m] itself and changes
    nothing, and [diff] reports [k] as the flat pair of the base value
    (or [Undefined]) and [m].  An item assigned in [m] afterwards goes to
    the dict at once, outside the transaction, and the diff still has the
    same flat pair for [k]. *)
Theorem set_dict_is_not_wrapped (h : heap) (self : loc)
    (td : TransactionalDict) (B : pydict) (k : key) (m : loc) :
  well_nested h ->
  wrappers h !! self = Some td ->
  dicts h !! _original td = Some B ->
  exists h1,
    __setitem__ self k (VDict m) h = Some (h1, Ret tt)
    /\ __getitem__ self k h1 = Some (h1, Ret (VDict m))
    /\ (forall fuel, length (wrappers h1) - self <= fuel ->
        exists d,
          diff fuel self h1 = Some (h1, Ret d)
          /\ PyDict.get d k
             = Some (DPair (PyDict.get_default B k VUndefined) (VDict m)))
    /\ (forall dm k' v', m <> _original td -> dicts h !! m = Some dm ->
        exists h2,
          dict_setitem m k' v' h1 = Some (h2, Ret tt)
          /\ dicts h2 !! m = Some (PyDict.set dm k' v')
          /\ __getitem__ self k h2 = Some (h2, Ret (VDict m))
          /\ forall fuel, length (wrappers h2) - self <= fuel ->
             exists d,
               diff fuel self h2 = Some (h2, Ret d)
               /\ PyDict.get d k
                  = Some (DPair (PyDict.get_default B k VUndefined)
                                (VDict m))).
Proof.
  intros Hwn Hself HB.
  pose proof (lookup_lt_Some _ _ _ Hself) as Hlt.
  pose proof (setitem_runs h self td Hself k (VDict m)) as Hset.
  set (td1 := TD (_original td) (PyDict.set (_overlay td) k (VDict m))).
  set (h1 := Heap (dicts h) (<[self := td1]> (wrappers h))) in *.
  assert (wrappers h1 !! self = Some td1) as Hself1
    by (by apply list_lookup_insert_eq).
  assert (PyDict.get (_overlay td1) k = Some (VDict m)) as Hk1
    by apply PyDictFacts.get_set_eq.
  assert (well_nested h1) as Hwn1
    by (by apply (setitem_well_nested self k (VDict m) h h1 (Ret tt))).
  exists h1. split; [done|]. split; [by apply (getitem_hit h1 self td1)|].
  split.
  - intros fuel Hfuel.
    destruct (diff_terminates fuel self h1 td1 B Hwn1 Hself1 HB Hfuel)
      as (d & Hdiff & _ & Hpair & _).
    exists d. split; [done|]. by apply Hpair.
  - intros dm k' v' Hne Hm.
    set (h2 := Heap (alter (fun d => PyDict.set d k' v') m (dicts h1))
                 (wrappers h1)).
    assert (well_nested h2) as Hwn2 by (by apply well_nested_update_dict).
    assert (dicts h2 !! _original td1 = Some B) as HB2.
    { unfold h2. simpl. by rewrite list_lookup_alter_ne. }
    exists h2. split.
    { unfold dict_setitem. run_py. by rewrite Hm. }
    split.
    { unfold h2. simpl. by rewrite list_lookup_alter_eq, Hm. }
    split; [by apply (getitem_hit h2 self td1)|].
    intros fuel Hfuel.
    destruct (diff_terminates fuel self h2 td1 B Hwn2 Hself1 HB2 Hfuel)
      as (d & Hdiff & _ & Hpair & _).
    exists d. split; [done|]. by apply Hpair.
Qed.

Lemma set_dict_is_not_wrapped_witness :
  exists h1,
    __setitem__ 0 (KStr "a") (VDict 1) example_heap0 = Some (h1, Ret tt)
    /\ __getitem__ 0 (KStr "a") h1 = Some (h1, Ret (VDict 1))
    /\ exists d, diff 1 0 h1 = Some (h1, Ret d)
                 /\ PyDict.get d (KStr "a")
                    = Some (DPair (VInt 1) (VDict 1)).
Proof.
  destruct (set_dict_is_not_wrapped example_heap0 0 (TD 0 []) example_base
              (KStr "a") 1 example_heap0_well_nested eq_refl eq_refl)
    as (h1 & Hset & Hget & Hdiff & _).
  exists h1. split; [exact Hset|]. split; [exact Hget|].
  apply (Hdiff 1). vm_compute in Hset. injection Hset as <-. simpl. lia.
Defined.


(** * Further properties of the methods *)

(** ** Membership, keys and single calls *)

Lemma contains_runs h self td B k :
  wrappers h !! self = Some td ->
  dicts h !! _original td = Some B ->
  __contains__ self k h
  = Some (h, Ret (bool_decide (is_Some (effective B (_overlay td) k)))).
Proof.
  intros Hself HB. unfold __contains__. run_py. rewrite Hself, HB.
  do 3 f_equal. unfold effective, PyDict.contains, PyDict.get_default.
  destruct (PyDict.get (_overlay td) k) as [[]|]; simpl; try done;
    by destruct (bool_decide (is_Some (PyDict.get B k))).
Qed.

Lemma contains_eval h self td k :
  wrappers h !! self = Some td ->
  __contains__ self k h
  = match dicts h !! _original td with
    | Some B =>
        Some (h, Ret (bool_decide (is_Some (effective B (_overlay td) k))))
    | None => None
    end.
Proof.
  intros Hself. destruct (dicts h !! _original td) as [B|] eqn:HB.
  - by apply contains_runs.
  - unfold __contains__. run_py. by rewrite Hself, HB.
Qed.

Lemma getitem_deleted h self td k :
  wrappers h !! self = Some td ->
  PyDict.get (_overlay td) k = Some VUndefined ->
  __getitem__ self k h = Some (h, Raise (KeyError_deleted k)).
Proof. intros Hself Ho. unfold __getitem__. run_py. by rewrite Hself, Ho. Qed.

Lemma getitem_absent h self td B k :
  wrappers h !! self = Some td ->
  dicts h !! _original td = Some B ->
  PyDict.get (_overlay td) k = None -> PyDict.get B k = None ->
  __getitem__ self k h = Some (h, Raise (KeyError k)).
Proof.
  intros Hself HB Ho Hb. unfold __getitem__. run_py.
  by rewrite Hself, Ho, HB, Hb.
Qed.

(** X1.  [key in self] says whether [self[key]] returns: it is true
    exactly when [__getitem__] returns a value and false exactly when
    [__getitem__] raises (and then nothing is stored); [__missing__] is its
    negation. *)
Theorem contains_iff_getitem_returns (h : heap) (self : loc)
    (td : TransactionalDict) (B : pydict) (k : key) :
  wrappers h !! self = Some td ->
  dicts h !! _original td = Some B ->
  exists c,
    __contains__ self k h = Some (h, Ret c)
    /\ __missing__ self k h = Some (h, Ret (negb c))
    /\ if c then exists h' v, __getitem__ self k h = Some (h', Ret v)
       else exists e, __getitem__ self k h = Some (h, Raise e).
Proof.
  intros Hself HB. eexists. split; [by apply (contains_runs h self td B)|].
  split.
  { unfold __missing__, bind.
    by rewrite (contains_runs h self td B k Hself HB). }
  unfold effective.
  destruct (PyDict.get (_overlay td) k) as [v|] eqn:Ho.
  - destruct v; simpl;
      try (eexists _, _; by apply (getitem_hit h self td Hself k)).
    exists (KeyError_deleted k). unfold __getitem__. run_py.
    by rewrite Hself, Ho.
  - destruct (PyDict.get B k) as [v|] eqn:Hb; simpl.
    + rewrite (getitem_miss h self td B Hself HB k v Ho Hb).
      destruct v; by eexists _, _.
    + exists (KeyError k). unfold __getitem__. run_py.
      by rewrite Hself, Ho, HB, Hb.
Qed.

Lemma contains_iff_getitem_returns_witness :
  (exists c,
     __contains__ 0 (KStr "a") example_heap = Some (example_heap, Ret c)
     /\ __missing__ 0 (KStr "a") example_heap
        = Some (example_heap, Ret (negb c))
     /\ if c
        then exists h' v,
               __getitem__ 0 (KStr "a") example_heap = Some (h', Ret v)
        else exists e,
               __getitem__ 0 (KStr "a") example_heap
               = Some (example_heap, Raise e))
  /\ (exists c,
        __contains__ 0 (KStr "d") example_heap = Some (example_heap, Ret c)
        /\ __missing__ 0 (KStr "d") example_heap
           = Some (example_heap, Ret (negb c))
        /\ if c
           then exists h' v,
                  __getitem__ 0 (KStr "d") example_heap = Some (h', Ret v)
           else exists e,
                  __getitem__ 0 (KStr "d") example_heap
                  = Some (example_heap, Raise e)).
Proof.
  split.
  - exact (contains_iff_getitem_returns example_heap 0 example_wrapper
             example_base (KStr "a") eq_refl eq_refl).
  - exact (contains_iff_getitem_returns example_heap 0 example_wrapper
             example_base (KStr "d") eq_refl eq_refl).
Defined.

(** X2.  [keys()] lists, without repetition, exactly the keys for which
    [key in self] is true. *)
Theorem keys_lists_contained_keys (h : heap) (self : loc)
    (td : TransactionalDict) (B : pydict) :
  wrappers h !! self = Some td ->
  dicts h !! _original td = Some B ->
  exists l,
    keys self h = Some (h, Ret (PyList l))
    /\ NoDup l
    /\ forall k, k ∈ l <-> __contains__ self k h = Some (h, Ret true).
Proof.
  intros Hself HB.
  destruct (keys_spec h self td B Hself HB) as (s & Hs & Hspec).
  exists (elements s). split.
  { unfold keys, bind. by rewrite Hs. }
  split; [apply NoDup_elements|].
  intros k. rewrite elem_of_elements, Hspec.
  rewrite (contains_runs h self td B k Hself HB). unfold effective.
  destruct (PyDict.get (_overlay td) k) as [v|] eqn:Ho.
  - destruct v; simpl; split; try done; try (intros _; split; [|done]);
      try (right; by eexists); try (by intros [_ ?]).
  - destruct (PyDict.get B k) as [v|] eqn:Hb; simpl.
    + split; [done|]. intros _. split; [left; by eexists|done].
    + split; [|done]. by intros [[[? [=]]|[? [=]]] _].
Qed.

Lemma keys_lists_contained_keys_witness :
  exists l,
    keys 0 example_heap = Some (example_heap, Ret (PyList l))
    /\ NoDup l
    /\ forall k,
         k ∈ l <-> __contains__ 0 k example_heap
                   = Some (example_heap, Ret true).
Proof.
  exact (keys_lists_contained_keys example_heap 0 example_wrapper
           example_base eq_refl eq_refl).
Defined.

(** X3.  A value that is set is the value that is read: after
    [self[k] = v], for [v] other than the sentinel, [self[k]] returns [v]
    and stores nothing more; no dict is touched, and [key in self] is as
    before for every other key. *)
Theorem set_then_get (h : heap) (self : loc) (td : TransactionalDict)
    (k : key) (v : val) :
  wrappers h !! self = Some td ->
  v <> VUndefined ->
  exists h1,
    __setitem__ self k v h = Some (h1, Ret tt)
    /\ __getitem__ self k h1 = Some (h1, Ret v)
    /\ dicts h1 = dicts h
    /\ forall k', k' <> k ->
         snd <$> __contains__ self k' h1 = snd <$> __contains__ self k' h.
Proof.
  intros Hself Hv. pose proof (lookup_lt_Some _ _ _ Hself) as Hlt.
  set (td1 := TD (_original td) (PyDict.set (_overlay td) k v)).
  set (h1 := Heap (dicts h) (<[self := td1]> (wrappers h))).
  assert (wrappers h1 !! self = Some td1) as Hself1
    by (by apply list_lookup_insert_eq).
  exists h1. split; [by apply setitem_runs|].
  split.
  { apply (getitem_hit h1 self td1 Hself1); [|done].
    apply PyDictFacts.get_set_eq. }
  split; [done|]. intros k' Hne.
  rewrite (contains_eval h1 self td1 k' Hself1).
  rewrite (contains_eval h self td k' Hself). simpl.
  destruct (dicts h !! _original td) as [B|]; [|done]. simpl.
  unfold effective. by rewrite PyDictFacts.get_set_ne.
Qed.

Lemma set_then_get_witness :
  exists h1,
    __setitem__ 0 (KStr "d") (VInt 7) example_heap = Some (h1, Ret tt)
    /\ __getitem__ 0 (KStr "d") h1 = Some (h1, Ret (VInt 7))
    /\ dicts h1 = dicts example_heap
    /\ forall k', k' <> KStr "d" ->
         snd <$> __contains__ 0 k' h1
         = snd <$> __contains__ 0 k' example_heap.
Proof.
  refine (set_then_get example_heap 0 example_wrapper (KStr "d") (VInt 7)
            eq_refl _).
  discriminate.
Defined.

Lemma del_set_fresh {V} (d : list (key * V)) k v :
  PyDict.get d k = None -> PyDict.del (PyDict.set d k v) k = d.
Proof.
  induction d as [|[k0 v0] d IH]; simpl.
  - intros _. by rewrite decide_True.
  - destruct (decide (k0 = k)) as [->|Hne]; [done|]. intros Hd. simpl.
    rewrite decide_False by done. by rewrite IH.
Qed.

(** X4.  A key that neither the base nor the overlay has, set and then
    deleted in the transaction, leaves no trace: the store is exactly as
    it was, so the key is no change to commit and no entry of the
    diff. *)
Theorem set_then_delete_leaves_no_trace (h : heap) (self : loc)
    (td : TransactionalDict) (B : pydict) (k : key) (v : val) :
  wrappers h !! self = Some td ->
  dicts h !! _original td = Some B ->
  PyDict.get B k = None ->
  PyDict.get (_overlay td) k = None ->
  (__setitem__ self k v;; __delitem__ self k) h = Some (h, Ret tt).
Proof.
  intros Hself HB Hb Ho. pose proof (lookup_lt_Some _ _ _ Hself) as Hlt.
  set (td1 := TD (_original td) (PyDict.set (_overlay td) k v)).
  set (h1 := Heap (dicts h) (<[self := td1]> (wrappers h))).
  assert (wrappers h1 !! self = Some td1) as Hself1
    by (by apply list_lookup_insert_eq).
  unfold bind. rewrite (setitem_runs h self td Hself k v). fold td1 h1.
  rewrite (delitem_runs h1 self td1 B Hself1 HB k).
  apply PyDictFacts.contains_false in Hb as ->.
  assert (PyDict.contains k (_overlay td1) = true) as ->.
  { apply PyDictFacts.contains_true. simpl.
    rewrite PyDictFacts.get_set_eq. by eexists. }
  simpl. rewrite del_set_fresh by done. do 2 f_equal.
  destruct h as [ds ws]. simpl in *. f_equal.
  rewrite list_insert_insert_eq. apply list_insert_id.
  rewrite Hself. by destruct td.
Qed.

Lemma set_then_delete_leaves_no_trace_witness :
  (__setitem__ 0 (KStr "new") (VInt 4);; __delitem__ 0 (KStr "new"))
    example_heap
  = Some (example_heap, Ret tt).
Proof.
  exact (set_then_delete_leaves_no_trace example_heap 0 example_wrapper
           example_base (KStr "new") (VInt 4) eq_refl eq_refl eq_refl
           eq_refl).
Defined.

(** X5.  After a delete that succeeded the key is gone from the view of
    the wrapper: [key in self] is false and [self[key]] raises, the
    "deleted in current transaction" error for a key of the base and the
    KeyError of the base dict for a key that only the overlay had; the
    base itself is untouched. *)
Theorem delete_then_absent (h : heap) (self : loc)
    (td : TransactionalDict) (B : pydict) (k : key) :
  wrappers h !! self = Some td ->
  dicts h !! _original td = Some B ->
  is_Some (PyDict.get B k) \/ is_Some (PyDict.get (_overlay td) k) ->
  exists h1,
    __delitem__ self k h = Some (h1, Ret tt)
    /\ __contains__ self k h1 = Some (h1, Ret false)
    /\ __getitem__ self k h1
       = Some (h1, Raise (if PyDict.contains k B then KeyError_deleted k
                          else KeyError k))
    /\ dicts h1 = dicts h.
Proof.
  intros Hself HB Hk. pose proof (lookup_lt_Some _ _ _ Hself) as Hlt.
  rewrite (delitem_runs h self td B Hself HB k).
  destruct (PyDict.contains k B) eqn:Hcb.
  - set (td1 := TD (_original td) (PyDict.set (_overlay td) k VUndefined)).
    set (h1 := Heap (dicts h) (<[self := td1]> (wrappers h))).
    assert (wrappers h1 !! self = Some td1) as Hself1
      by (by apply list_lookup_insert_eq).
    exists h1. split; [done|]. split.
    { rewrite (contains_runs h1 self td1 B k Hself1 HB). unfold effective.
      simpl. by rewrite PyDictFacts.get_set_eq. }
    split; [|done]. apply (getitem_deleted h1 self td1 k Hself1).
    apply PyDictFacts.get_set_eq.
  - apply PyDictFacts.contains_false in Hcb.
    destruct Hk as [[? Hk]|Hk]; [congruence|].
    apply PyDictFacts.contains_true in Hk as ->.
    set (td1 := TD (_original td) (PyDict.del (_overlay td) k)).
    set (h1 := Heap (dicts h) (<[self := td1]> (wrappers h))).
    assert (wrappers h1 !! self = Some td1) as Hself1
      by (by apply list_lookup_insert_eq).
    exists h1. split; [done|]. split.
    { rewrite (contains_runs h1 self td1 B k Hself1 HB). unfold effective.
      simpl. by rewrite PyDictFacts.get_del_eq, Hcb. }
    split; [|done]. apply (getitem_absent h1 self td1 B k Hself1 HB); [|done].
    apply PyDictFacts.get_del_eq.
Qed.

Lemma delete_then_absent_witness :
  (exists h1,
     __delitem__ 0 (KStr "a") example_heap = Some (h1, Ret tt)
     /\ __contains__ 0 (KStr "a") h1 = Some (h1, Ret false)
     /\ __getitem__ 0 (KStr "a") h1
        = Some (h1, Raise (KeyError_deleted (KStr "a")))
     /\ dicts h1 = dicts example_heap)
  /\ (exists h1,
        __delitem__ 0 (KStr "o") example_heap = Some (h1, Ret tt)
        /\ __contains__ 0 (KStr "o") h1 = Some (h1, Ret false)
        /\ __getitem__ 0 (KStr "o") h1
           = Some (h1, Raise (KeyError (KStr "o")))
        /\ dicts h1 = dicts example_heap).
Proof.
  split.
  - exact (delete_then_absent example_heap 0 example_wrapper example_base
             (KStr "a") eq_refl eq_refl
             (or_introl (ex_intro _ (VInt 1) eq_refl))).
  - exact (delete_then_absent example_heap 0 example_wrapper example_base
             (KStr "o") eq_refl eq_refl
             (or_intror (ex_intro _ (VInt 5) eq_refl))).
Defined.

(** X6.  The wrapper of a nested dict is created once.  The first read
    of a base key whose value is a dict returns a new wrapper; reading the
    key again returns the same wrapper and creates nothing; and a value
    set through that wrapper is what a later read through the outer
    wrapper finds, with every dict still untouched. *)
Theorem nested_wrapper_is_stable (h : heap) (self : loc)
    (td : TransactionalDict) (B : pydict) (k : key) (m : loc) :
  wrappers h !! self = Some td ->
  dicts h !! _original td = Some B ->
  PyDict.get (_overlay td) k = None ->
  PyDict.get B k = Some (VDict m) ->
  exists n h1,
    __getitem__ self k h = Some (h1, Ret (VTrans n))
    /\ wrappers h !! n = None
    /\ __getitem__ self k h1 = Some (h1, Ret (VTrans n))
    /\ forall k2 v, v <> VUndefined ->
       exists h2,
         __setitem__ n k2 v h1 = Some (h2, Ret tt)
         /\ __getitem__ self k h2 = Some (h2, Ret (VTrans n))
         /\ __getitem__ n k2 h2 = Some (h2, Ret v)
         /\ dicts h2 = dicts h.
Proof.
  intros Hself HB Ho Hb. pose proof (lookup_lt_Some _ _ _ Hself) as Hlt.
  set (n := length (wrappers h)).
  set (td1 := TD (_original td) (PyDict.set (_overlay td) k (VTrans n))).
  set (h1 := Heap (dicts h) (<[self := td1]> (wrappers h ++ [TD m []]))).
  assert (wrappers h1 !! self = Some td1) as Hself1.
  { apply list_lookup_insert_eq. rewrite length_app. simpl. lia. }
  assert (wrappers h1 !! n = Some (TD m [])) as Hn1.
  { unfold h1. simpl. rewrite list_lookup_insert_ne by (unfold n; lia).
    unfold n. by rewrite lookup_app_r, Nat.sub_diag by lia. }
  assert (PyDict.get (_overlay td1) k = Some (VTrans n)) as Hk1
    by apply PyDictFacts.get_set_eq.
  exists n, h1. split.
  { by rewrite (getitem_miss h self td B Hself HB k _ Ho Hb). }
  split; [by apply lookup_ge_None_2|].
  split; [by apply (getitem_hit h1 self td1 Hself1)|].
  intros k2 v Hv.
  set (tdn := TD m (PyDict.set [] k2 v)).
  set (h2 := Heap (dicts h1) (<[n := tdn]> (wrappers h1))).
  assert (wrappers h2 !! n = Some tdn) as Hn2.
  { apply list_lookup_insert_eq. by apply lookup_lt_Some in Hn1. }
  assert (wrappers h2 !! self = Some td1) as Hself2.
  { unfold h2. simpl. rewrite list_lookup_insert_ne by (unfold n; lia).
    done. }
  exists h2. split; [exact (setitem_runs h1 n _ Hn1 k2 v)|].
  split; [by apply (getitem_hit h2 self td1 Hself2)|].
  split; [|done]. apply (getitem_hit h2 n tdn Hn2); [|done].
  apply PyDictFacts.get_set_eq.
Qed.

Lemma nested_wrapper_is_stable_witness :
  exists n h1,
    __getitem__ 0 (KStr "n") example_heap = Some (h1, Ret (VTrans n))
    /\ wrappers example_heap !! n = None
    /\ __getitem__ 0 (KStr "n") h1 = Some (h1, Ret (VTrans n))
    /\ forall k2 v, v <> VUndefined ->
       exists h2,
         __setitem__ n k2 v h1 = Some (h2, Ret tt)
         /\ __getitem__ 0 (KStr "n") h2 = Some (h2, Ret (VTrans n))
         /\ __getitem__ n k2 h2 = Some (h2, Ret v)
         /\ dicts h2 = dicts example_heap.
Proof.
  exact (nested_wrapper_is_stable example_heap 0 example_wrapper
           example_base (KStr "n") 1 eq_refl eq_refl eq_refl eq_refl).
Defined.


(** ** [commit] on an overlay without nested wrappers *)

Lemma for_items_app {V A} (items1 items2 : list (key * V))
    (body : key -> V -> A -> M A) acc h :
  for_items (items1 ++ items2) body acc h
  = bind (for_items items1 body acc)
      (fun acc' => for_items items2 body acc') h.
Proof.
  revert acc h. induction items1 as [|[k v] items1 IH]; intros acc h; simpl.
  - done.
  - unfold bind. destruct (body k v acc h) as [[h1 [a|e]]|]; [|done|done].
    by rewrite IH.
Qed.

Lemma alter_as_insert {A} (f : A -> A) (l : list A) i x :
  l !! i = Some x -> alter f i l = <[i := f x]> l.
Proof.
  intros Hi. apply list_eq. intros j.
  rewrite list_lookup_alter, list_lookup_insert.
  pose proof (lookup_lt_Some _ _ _ Hi).
  destruct (decide (i = j)) as [<-|Hne].
  - rewrite !decide_True by done. by rewrite Hi.
  - rewrite decide_False; [done|]. by intros [? _].
Qed.

Lemma effective_cons B k0 v0 items k :
  PyDict.get items k0 = None ->
  effective (if is_Undefined v0 then PyDict.del B k0
             else PyDict.set B k0 v0) items k
  = effective B ((k0, v0) :: items) k.
Proof.
  intros Hk0. unfold effective. simpl.
  destruct (decide (k0 = k)) as [<-|Hne].
  - rewrite Hk0. destruct (is_Undefined v0).
    + apply PyDictFacts.get_del_eq.
    + apply PyDictFacts.get_set_eq.
  - destruct (PyDict.get items k); [done|]. destruct (is_Undefined v0).
    + by apply PyDictFacts.get_del_ne.
    + by apply PyDictFacts.get_set_ne.
Qed.

(** The loop of [commit] over items that hold no wrapper, when every key
    marked as deleted is in the base: the base dict ends up showing what
    the items over the old base show. *)
Lemma commit_loop_flat (rec : loc -> M val) b items :
  flat items -> NoDup (PyDict.keys items) ->
  forall h B,
    dicts h !! b = Some B ->
    (forall k, PyDict.get items k = Some VUndefined ->
       is_Some (PyDict.get B k)) ->
    exists B',
      for_items items (commit_item rec b) tt h
      = Some (Heap (<[b := B']> (dicts h)) (wrappers h), Ret tt)
      /\ forall k, PyDict.get B' k = effective B items k.
Proof.
  induction items as [|[k0 v0] items IH]; intros Hflat Hnd h B HB Hdel.
  { exists B. simpl. split; [|done]. unfold ret. do 2 f_equal.
    destruct h as [ds ws]. simpl in *. f_equal.
    symmetry. by apply list_insert_id. }
  unfold PyDict.keys in Hnd. simpl in Hnd.
  apply NoDup_cons in Hnd as [Hk0 Hnd].
  pose proof (get_not_in_keys items k0 Hk0) as Hitems0.
  pose proof (lookup_lt_Some _ _ _ HB) as Hlt.
  set (B1 := if is_Undefined v0 then PyDict.del B k0
             else PyDict.set B k0 v0).
  set (h1 := Heap (<[b := B1]> (dicts h)) (wrappers h)).
  assert (commit_item rec b k0 v0 tt h = Some (h1, Ret tt)) as Hitem.
  { assert (isinstance_TransactionalDict v0 = false) as Hv0
      by (apply (Hflat k0); apply list_elem_of_here).
    unfold commit_item, dict_setitem, dict_delitem. run_py.
    destruct v0; try done; rewrite HB; simpl;
      try (by rewrite (alter_as_insert _ _ _ _ HB)).
    assert (PyDict.contains k0 B = true) as ->.
    { apply PyDictFacts.contains_true. apply Hdel. simpl.
      by rewrite decide_True. }
    by rewrite (alter_as_insert _ _ _ _ HB). }
  destruct (IH (fun k v Hin => Hflat k v (list_elem_of_further _ _ _ Hin))
              Hnd h1 B1) as (B' & Hloop & HB').
  { by apply list_lookup_insert_eq. }
  { intros k Hk. assert (k0 <> k) as Hne by (intros ->; congruence).
    assert (is_Some (PyDict.get B k)) as HBk.
    { apply Hdel. simpl. by rewrite decide_False. }
    unfold B1. destruct (is_Undefined v0).
    - by rewrite PyDictFacts.get_del_ne.
    - by rewrite PyDictFacts.get_set_ne. }
  exists B'. split.
  - simpl. unfold bind at 1. rewrite Hitem, Hloop. unfold h1. simpl.
    by rewrite list_insert_insert_eq.
  - intros k. rewrite HB'. by apply effective_cons.
Qed.

(** X7.  [commit] on a wrapper whose overlay holds no nested wrapper, when
    every key the overlay marks as deleted is in the base: it returns the
    base, the overlay is emptied, no other object changes, and the base
    then holds for every key what the wrapper showed: the keys of the base
    after the commit are the keys for which [key in self] was true
    before, with the staged value or else the old base value. *)
Theorem commit_applies_flat_overlay (fuel : nat) (h : heap) (self : loc)
    (td : TransactionalDict) (B : pydict) :
  wrappers h !! self = Some td ->
  dicts h !! _original td = Some B ->
  flat (_overlay td) ->
  NoDup (PyDict.keys (_overlay td)) ->
  (forall k, PyDict.get (_overlay td) k = Some VUndefined ->
     is_Some (PyDict.get B k)) ->
  exists B',
    commit (S fuel) self h
    = Some (Heap (<[_original td := B']> (dicts h))
              (<[self := TD (_original td) []]> (wrappers h)),
            Ret (VDict (_original td)))
    /\ (forall k, PyDict.get B' k = effective B (_overlay td) k)
    /\ (forall k, __contains__ self k h
                  = Some (h, Ret (bool_decide (is_Some (PyDict.get B' k))))).
Proof.
  intros Hself HB Hflat Hnd Hdel.
  destruct (commit_loop_flat (commit fuel) (_original td) (_overlay td)
              Hflat Hnd h B HB Hdel) as (B' & Hloop & HB').
  exists B'. split; [|split; [done|]].
  - simpl. unfold bind at 1, the_wrapper. rewrite Hself.
    unfold bind at 1. rewrite Hloop. run_py. do 3 f_equal.
    by rewrite (alter_as_insert _ _ _ _ Hself).
  - intros k. rewrite (contains_runs h self td B k Hself HB).
    by rewrite HB'.
Qed.

Lemma commit_applies_flat_overlay_witness :
  exists B',
    commit 1 0 example_heap
    = Some (Heap (<[0 := B']> (dicts example_heap)) [TD 0 []],
            Ret (VDict 0))
    /\ (forall k, PyDict.get B' k
                  = effective example_base (_overlay example_wrapper) k)
    /\ (forall k, __contains__ 0 k example_heap
                  = Some (example_heap,
                          Ret (bool_decide (is_Some (PyDict.get B' k))))).
Proof.
  refine (commit_applies_flat_overlay 0 example_heap 0 example_wrapper
            example_base eq_refl eq_refl _ _ _).
  - intros k v Hin. unfold example_wrapper in Hin. simpl in Hin.
    apply elem_of_cons in Hin as [Hin|Hin]; [by injection Hin as -> ->|].
    apply elem_of_cons in Hin as [Hin|Hin]; [by injection Hin as -> ->|].
    by apply elem_of_nil in Hin.
  - apply NoDup_cons. split.
    + intros Hin. apply list_elem_of_singleton in Hin. discriminate.
    + apply NoDup_singleton.
  - intros k Hk. simpl in Hk.
    destruct (decide (KStr "d" = k)) as [<-|Hne]; [by eexists|].
    destruct (decide (KStr "o" = k)); discriminate.
Defined.

(** X8.  [commit] is not atomic.  When the overlay marks as deleted a key
    that the base does not have (the sentinel was set as a value, or the
    base lost the key since the delete), [commit] raises the KeyError of
    the base dict at that entry: the entries before it are already
    written to the base, and the overlay is not emptied. *)
Theorem commit_fails_midway (fuel : nat) (h : heap) (self : loc)
    (td : TransactionalDict) (B : pydict) (pre post : pydict) (k : key) :
  wrappers h !! self = Some td ->
  dicts h !! _original td = Some B ->
  _overlay td = pre ++ (k, VUndefined) :: post ->
  flat pre ->
  NoDup (PyDict.keys pre) ->
  k ∉ PyDict.keys pre ->
  (forall k', PyDict.get pre k' = Some VUndefined ->
     is_Some (PyDict.get B k')) ->
  PyDict.get B k = None ->
  exists B1,
    commit (S fuel) self h
    = Some (Heap (<[_original td := B1]> (dicts h)) (wrappers h),
            Raise (KeyError k))
    /\ forall k', PyDict.get B1 k' = effective B pre k'.
Proof.
  intros Hself HB Ho Hflat Hnd Hk Hdel HBk.
  destruct (commit_loop_flat (commit fuel) (_original td) pre
              Hflat Hnd h B HB Hdel) as (B1 & Hloop & HB1).
  exists B1. split; [|done].
  simpl. unfold bind at 1, the_wrapper. rewrite Hself.
  unfold bind at 1. rewrite Ho, for_items_app.
  unfold bind at 1. rewrite Hloop. simpl.
  unfold bind at 1. unfold commit_item, dict_delitem, bind, the_dict.
  simpl. rewrite list_lookup_insert_eq by (by eapply lookup_lt_Some).
  assert (PyDict.contains k B1 = false) as ->; [|done].
  apply PyDictFacts.contains_false. rewrite HB1. unfold effective.
  by rewrite (get_not_in_keys pre k Hk).
Qed.

Lemma commit_fails_midway_witness :
  exists B1,
    commit 1 0 example_stale_heap
    = Some (Heap (<[0 := B1]> (dicts example_data)) [example_stale_wrapper],
            Raise (KeyError (KStr "zz")))
    /\ forall k', PyDict.get B1 k'
                  = effective example_base [(KStr "a", VInt 9)] k'.
Proof.
  refine (commit_fails_midway 0 example_stale_heap 0 example_stale_wrapper
            example_base [(KStr "a", VInt 9)] [(KStr "d", VInt 8)]
            (KStr "zz") eq_refl eq_refl eq_refl _ _ _ _ eq_refl).
  - intros k v Hin. apply list_elem_of_singleton in Hin.
    by injection Hin as -> ->.
  - apply NoDup_singleton.
  - intros Hin. apply list_elem_of_singleton in Hin. discriminate.
  - intros k' Hk'. simpl in Hk'.
    destruct (decide (KStr "a" = k')); discriminate.
Defined.

(** ** [commit] on well nested wrappers *)

#[global] Instance settled_preorder : PreOrder settled.
Proof.
  split.
  - intros h. split; [done|]. split; [done|]. intros w td Hw.
    exists td. auto.
  - intros h1 h2 h3 (Hd12 & Hl12 & H12) (Hd23 & Hl23 & H23).
    split; [congruence|]. split; [congruence|]. intros w td3 Hw3.
    destruct (H23 w td3 Hw3) as (td2 & Hw2 & Ho23 & Hov23).
    destruct (H12 w td2 Hw2) as (td1 & Hw1 & Ho12 & Hov12).
    exists td1. split; [done|]. split; [congruence|].
    destruct Hov23 as [-> | ->]; [done|by right].
Qed.

Lemma cleared_settled h h' : cleared h h' -> settled h h'.
Proof. intros (Hd & Hl & Hc). split; [by rewrite Hd|]. by split. Qed.

Lemma settled_well_nested h h' :
  settled h h' -> well_nested h -> well_nested h'.
Proof.
  intros (Hd & Hl & Hc) Hwn w td' Hw'.
  destruct (Hc w td' Hw') as (td & Hw & Ho & Hov).
  destruct (Hwn w td Hw) as (Hb & Hnd & Hnest).
  rewrite Hl, Ho. split.
  { apply lookup_lt_is_Some. rewrite Hd. by apply lookup_lt_is_Some. }
  destruct Hov as [-> | ->]; [by split|].
  split; [apply NoDup_nil_2|]. intros k w' Hin. by apply elem_of_nil in Hin.
Qed.

Lemma settled_update_dict b f h :
  settled h (Heap (alter f b (dicts h)) (wrappers h)).
Proof.
  split; [simpl; by rewrite length_alter|]. split; [done|].
  intros w td Hw. exists td. auto.
Qed.

Lemma dict_setitem_settled b k v h :
  is_Some (dicts h !! b) ->
  exists h', dict_setitem b k v h = Some (h', Ret tt) /\ settled h h'.
Proof.
  intros [B HB]. eexists. split.
  - unfold dict_setitem. run_py. by rewrite HB.
  - apply settled_update_dict.
Qed.

Lemma dict_delitem_settled b k h :
  is_Some (dicts h !! b) ->
  exists h' r, dict_delitem b k h = Some (h', r) /\ settled h h'
               /\ (r = Ret tt \/ r = Raise (KeyError k)).
Proof.
  intros [B HB]. unfold dict_delitem. run_py. rewrite HB.
  destruct (PyDict.contains k B).
  - eexists _, _. split; [done|]. split; [apply settled_update_dict|].
    by left.
  - eexists _, _. split; [done|]. split; [reflexivity|]. by right.
Qed.

Lemma commit_loop_terminates (rec : loc -> M val) self len b items :
  (forall w' h td', self < w' -> well_nested h ->
     length (wrappers h) = len -> wrappers h !! w' = Some td' ->
     exists h' r, rec w' h = Some (h', r) /\ settled h h'
                  /\ ((exists v, r = Ret v) \/ exists k, r = Raise (KeyError k))) ->
  (forall k w', (k, VTrans w') ∈ items -> self < w' < len) ->
  forall h, well_nested h -> length (wrappers h) = len ->
    is_Some (dicts h !! b) ->
    exists h' r,
      for_items items (commit_item rec b) tt h = Some (h', r)
      /\ settled h h'
      /\ (r = Ret tt \/ exists k, r = Raise (KeyError k)).
Proof.
  intros Hrec.
  induction items as [|[k v] items IH]; intros Hitems h Hwn Hlen Hb.
  { exists h, (Ret tt). split; [done|]. split; [reflexivity|by left]. }
  assert (exists h1 r1, commit_item rec b k v tt h = Some (h1, r1)
                        /\ settled h h1
                        /\ (r1 = Ret tt \/ exists k, r1 = Raise (KeyError k)))
    as (h1 & r1 & Hitem & Hs1 & Hr1).
  { unfold commit_item.
    destruct v as [| | | |m|w'];
      try (edestruct (dict_setitem_settled b k) as (h1 & Hset & Hs);
           [exact Hb|];
           exists h1, (Ret tt); split; [exact Hset|]; split; [done|by left]).
    - destruct (dict_delitem_settled b k h Hb) as (h1 & r & Hdel & Hs & Hr).
      exists h1, r. split; [done|]. split; [done|].
      destruct Hr as [->| ->]; [by left|right; by eexists].
    - assert (self < w' < len) as Hw'
        by (apply (Hitems k); apply list_elem_of_here).
      destruct (lookup_lt_is_Some_2 (wrappers h) w') as [td' Htd']; [lia|].
      destruct (Hrec w' h td') as (h1 & r & Hr & Hs & Hres);
        [lia|done|done|done|].
      destruct Hres as [[v ->]|[k' ->]].
      + destruct (dict_setitem_settled b k v h1) as (h2 & Hset & Hs2).
        { apply lookup_lt_is_Some. destruct Hs as (-> & _).
          by apply lookup_lt_is_Some. }
        exists h2, (Ret tt). unfold bind. rewrite Hr.
        split; [done|]. split; [by transitivity h1|by left].
      + exists h1, (Raise (KeyError k')). unfold bind. rewrite Hr.
        split; [done|]. split; [done|]. right. by eexists. }
  destruct Hr1 as [->|[k' ->]].
  - destruct (IH (fun k' w' Hin =>
                    Hitems k' w' (list_elem_of_further _ _ _ Hin)) h1)
      as (h2 & r2 & Hrest & Hs2 & Hr2).
    + by eapply settled_well_nested.
    + destruct Hs1 as (_ & Hl & _). congruence.
    + apply lookup_lt_is_Some. destruct Hs1 as (-> & _).
      by apply lookup_lt_is_Some.
    + exists h2, r2. split; [|split; [by transitivity h1|done]].
      simpl. unfold bind at 1. by rewrite Hitem.
  - exists h1, (Raise (KeyError k')). split; [|split; [done|]].
    + simpl. unfold bind at 1. by rewrite Hitem.
    + right. by eexists.
Qed.

(** X9.  On well nested wrappers [commit] ends, given fuel for the depth
    of the nesting: it returns the reference to the base of the wrapper,
    or it raises the KeyError of a built-in dict that was asked to delete
    a key it does not have, and nothing else.  Either way no object is
    created or removed, every wrapper stays over its base, and an overlay
    is as it was or emptied. *)
Theorem commit_terminates (fuel : nat) (self : loc) (h : heap)
    (td : TransactionalDict) :
  well_nested h -> wrappers h !! self = Some td ->
  length (wrappers h) - self <= fuel ->
  exists h' r,
    commit fuel self h = Some (h', r)
    /\ settled h h'
    /\ (r = Ret (VDict (_original td)) \/ exists k, r = Raise (KeyError k)).
Proof.
  revert self h td.
  induction fuel as [|fuel IH]; intros self h td Hwn Hself Hfuel.
  { apply lookup_lt_Some in Hself. lia. }
  destruct (Hwn self td Hself) as (Hb & _ & Hnest).
  destruct (commit_loop_terminates (commit fuel) self (length (wrappers h))
              (_original td) (_overlay td)) with (h := h)
    as (h1 & r1 & Hloop & Hs1 & Hr1); [|done|done|done|done|].
  { intros w' h0 td' Hlt Hwn0 Hlen0 Htd'.
    destruct (IH w' h0 td' Hwn0 Htd') as (h' & r & Hc & Hs & Hr); [lia|].
    exists h', r. split; [done|]. split; [done|].
    destruct Hr as [->|?]; [left; by eexists|by right]. }
  simpl. unfold bind at 1, the_wrapper. rewrite Hself.
  unfold bind at 1. rewrite Hloop.
  destruct Hr1 as [->|[k ->]].
  - eexists _, _. split; [reflexivity|]. split; [|by left].
    transitivity h1; [done|]. apply cleared_settled.
    apply cleared_empty_overlay.
  - eexists _, _. split; [reflexivity|]. split; [done|]. right. by eexists.
Qed.

Lemma commit_terminates_witness :
  exists h' r,
    commit 1 0 example_stale_heap = Some (h', r)
    /\ settled example_stale_heap h'
    /\ (r = Ret (VDict 0) \/ exists k, r = Raise (KeyError k)).
Proof.
  refine (commit_terminates 1 0 example_stale_heap example_stale_wrapper
            _ eq_refl _).
  - intros w td Hw. destruct w as [|w]; [|done]. injection Hw as <-.
    split; [by eexists|]. split.
    + unfold PyDict.keys. simpl. repeat (apply NoDup_cons; split);
        try apply NoDup_nil_2; rewrite ?elem_of_cons, ?elem_of_nil;
        intros Hin; repeat destruct Hin as [Hin|Hin]; done.
    + intros k w' Hin. simpl in Hin.
      repeat (apply elem_of_cons in Hin as [Hin|Hin]; [done|]).
      by apply elem_of_nil in Hin.
  - simpl. lia.
Defined.

(** ** [abort] *)

Lemma abort_cleared fuel self h h' r :
  abort fuel self h = Some (h', r) -> cleared h h'.
Proof.
  revert self h h' r. induction fuel as [|fuel IH]; intros self h h' r;
    [done|].
  simpl. intros [(h0 & td & Htd & Hrun)|(e & Htd & _)]%bind_inv.
  2:{ by apply the_wrapper_inv in Htd as (? & _ & _ & ?). }
  apply the_wrapper_inv in Htd as (_ & _ & -> & _).
  assert (forall acc h1 h2 r',
            for_items (_overlay td) (abort_item (abort fuel)) acc h1
            = Some (h2, r') -> cleared h1 h2) as Hloop.
  { apply for_items_preserves; [apply _|].
    intros k v acc h1 h2 r' _. unfold abort_item.
    destruct v; try (intros [= <- <-]; reflexivity).
    intros [(h3 & a & Ha & [= <- <-])|(e & Ha & _)]%bind_inv; by eapply IH. }
  apply bind_inv in Hrun as [(h1 & a & Hl & Hrest)|(e & Hl & _)];
    [|by eapply Hloop].
  transitivity h1; [by eapply Hloop|].
  apply bind_inv in Hrest as [(h2 & a' & Hu & Hret)|(e & Hu & _)].
  - injection Hret as <- <-. injection Hu as <-. apply cleared_empty_overlay.
  - injection Hu as <-. apply cleared_empty_overlay.
Qed.

Lemma empty_in_cleared h h' w :
  cleared h h' -> empty_in h w -> empty_in h' w.
Proof.
  intros (_ & Hl & Hc) (td & Hw & Ho).
  destruct (lookup_lt_is_Some_2 (wrappers h') w) as [td' Hw'].
  { rewrite Hl. by eapply lookup_lt_Some. }
  destruct (Hc w td' Hw') as (td0 & Hw0 & _ & Hov).
  exists td'. split; [done|]. rewrite Hw in Hw0. injection Hw0 as <-.
  destruct Hov as [-> | ->]; done.
Qed.

(** An [abort] that returns has emptied the overlay of its wrapper and
    returns the reference to its base. *)
Lemma abort_returns fuel self h h' r :
  abort fuel self h = Some (h', r) ->
  exists td,
    wrappers h !! self = Some td
    /\ r = Ret (VDict (_original td))
    /\ wrappers h' !! self = Some (TD (_original td) []).
Proof.
  intros Habort. pose proof (abort_cleared _ _ _ _ _ Habort) as Hc.
  destruct fuel as [|fuel]; [done|]. simpl in Habort.
  apply bind_inv in Habort as [(h0 & td & Htd & Hrun)|(e & Htd & _)].
  2:{ by apply the_wrapper_inv in Htd as (? & _ & _ & ?). }
  apply the_wrapper_inv in Htd as (td0 & Hself & -> & [= ->]).
  exists td0. split; [done|].
  apply bind_inv in Hrun as [(h1 & [] & Hloop & Hrest)|(e & Hloop & _)].
  2:{ exfalso. revert Hloop. apply for_items_never_raises.
      intros k v acc h2 h3 e2. unfold abort_item. destruct v; try done.
      intros [(? & ? & _ & ?)|(? & Ha & _)]%bind_inv; [done|].
      by eapply abort_never_raises. }
  apply bind_inv in Hrest as [(h2 & [] & Hu & Hret)|(e & Hu & _)]; [|done].
  injection Hret as <- <-. split; [done|]. injection Hu as <-.
  assert (cleared h h1) as Hc1.
  { revert Hloop. apply for_items_preserves; [apply _|].
    intros k v acc h3 h4 r' _. unfold abort_item.
    destruct v; try (intros [= <- <-]; reflexivity).
    intros [(h5 & a & Ha & [= <- <-])|(e & Ha & _)]%bind_inv;
      by eapply abort_cleared. }
  simpl. rewrite list_lookup_alter_eq.
  destruct Hc1 as (_ & Hl1 & Hc1).
  destruct (lookup_lt_is_Some_2 (wrappers h1) self) as [td1 Hw1].
  { rewrite Hl1. by eapply lookup_lt_Some. }
  rewrite Hw1. simpl. destruct (Hc1 self td1 Hw1) as (td2 & Hw2 & Ho & _).
  rewrite Hself in Hw2. injection Hw2 as <-. by rewrite Ho.
Qed.

(** X10.  [abort] never writes to a dict, and discards what its wrapper
    staged: when it returns, every dict is as before, it returns the
    reference to the base, the wrapper shows the base again ([key in self]
    is true exactly for the keys of the base, and [diff] is empty), and a
    second [abort] changes nothing. *)
Theorem abort_discards (fuel fuel' : nat) (self : loc) (h h' : heap)
    (r : result val) :
  abort fuel self h = Some (h', r) ->
  exists b,
    r = Ret (VDict b)
    /\ dicts h' = dicts h
    /\ wrappers h' !! self = Some (TD b [])
    /\ abort (S fuel') self h' = Some (h', r)
    /\ diff (S fuel') self h' = Some (h', Ret [])
    /\ forall B k, dicts h !! b = Some B ->
         __contains__ self k h'
         = Some (h', Ret (bool_decide (is_Some (PyDict.get B k)))).
Proof.
  intros Habort.
  destruct (abort_returns _ _ _ _ _ Habort) as (td & Hself & -> & Hself').
  destruct (abort_cleared _ _ _ _ _ Habort) as (Hd & _ & _).
  exists (_original td). split; [done|]. split; [done|]. split; [done|].
  split; [|split].
  - simpl. run_py. rewrite Hself'. simpl. do 2 f_equal.
    destruct h' as [ds ws]. simpl in *. f_equal.
    apply list_eq. intros i. rewrite list_lookup_alter.
    case_decide; [subst|done]. by rewrite Hself'.
  - simpl. unfold bind, the_wrapper. by rewrite Hself'.
  - intros B k HB.
    rewrite (contains_runs h' self _ B k Hself'); [done|].
    simpl. by rewrite Hd.
Qed.

Lemma abort_discards_witness :
  exists b,
    Ret (VDict 0) = Ret (VDict b)
    /\ dicts (Heap (dicts example_heap) [TD 0 []]) = dicts example_heap
    /\ wrappers (Heap (dicts example_heap) [TD 0 []]) !! 0 = Some (TD b [])
    /\ abort 1 0 (Heap (dicts example_heap) [TD 0 []])
       = Some (Heap (dicts example_heap) [TD 0 []], Ret (VDict 0))
    /\ diff 1 0 (Heap (dicts example_heap) [TD 0 []])
       = Some (Heap (dicts example_heap) [TD 0 []], Ret [])
    /\ forall B k, dicts example_heap !! b = Some B ->
         __contains__ 0 k (Heap (dicts example_heap) [TD 0 []])
         = Some (Heap (dicts example_heap) [TD 0 []],
                 Ret (bool_decide (is_Some (PyDict.get B k)))).
Proof.
  exact (abort_discards 1 0 0 example_heap
           (Heap (dicts example_heap) [TD 0 []]) (Ret (VDict 0)) eq_refl).
Defined.

(** The invariant of a running [abort] over the store [h] it started
    from: overlays are as in [h] or emptied, and where a wrapper is
    emptied, the wrappers its overlay held in [h] are emptied too. *)
Lemma abort_closed_step h fuel :
  forall self hi h' r,
    cleared h hi ->
    (forall w c, empty_in hi w -> child h w c -> empty_in hi c) ->
    abort fuel self hi = Some (h', r) ->
    (forall w c, empty_in h' w -> child h w c -> empty_in h' c)
    /\ empty_in h' self.
Proof.
  induction fuel as [|fuel IH]; intros self hi h' r Hci Hclosed Habort;
    [done|].
  pose proof (abort_cleared _ _ _ _ _ Habort) as Hcall.
  destruct (abort_returns _ _ _ _ _ Habort) as (tdi & Hselfi & _ & Hself').
  assert (empty_in h' self) as Hempty by (by eexists).
  split; [|done].
  simpl in Habort. unfold bind at 1, the_wrapper in Habort.
  rewrite Hselfi in Habort.
  apply bind_inv in Habort as [(hk & [] & Hloop & Hrest)|(e & Hloop & _)].
  2:{ exfalso. revert Hloop. apply for_items_never_raises.
      intros k v acc h2 h3 e2. unfold abort_item. destruct v; try done.
      intros [(? & ? & _ & ?)|(? & Ha & _)]%bind_inv; [done|].
      by eapply abort_never_raises. }
  assert (forall items hj hk' r',
            cleared h hj ->
            (forall w c, empty_in hj w -> child h w c -> empty_in hj c) ->
            for_items items (abort_item (abort fuel)) tt hj = Some (hk', r') ->
            cleared hj hk'
            /\ (forall w c, empty_in hk' w -> child h w c -> empty_in hk' c)
            /\ forall k c, (k, VTrans c) ∈ items -> empty_in hk' c)
    as Hloop_inv.
  { induction items as [|[k v] items IHitems]; intros hj hk' r' Hcj Hclj.
    { intros [= <- <-]. split; [reflexivity|]. split; [done|].
      intros k c Hin. by apply elem_of_nil in Hin. }
    simpl.
    intros [(hj' & [] & Hitem & Hrest')|(e & Hitem & _)]%bind_inv.
    2:{ exfalso. revert Hitem. unfold abort_item. destruct v; try done.
        intros [(? & ? & _ & ?)|(? & Ha & _)]%bind_inv; [done|].
        by eapply abort_never_raises. }
    assert (cleared hj hj'
            /\ (forall w c, empty_in hj' w -> child h w c -> empty_in hj' c)
            /\ forall c, v = VTrans c -> empty_in hj' c)
      as (Hcjj' & Hclj' & Hv).
    { revert Hitem. unfold abort_item.
      destruct v as [| | | |m|c];
        try (intros [= <-]; split; [reflexivity|]; split; [done|];
             by intros c [=]).
      intros [(hx & a & Ha & [= <-])|(e & Ha & [=])]%bind_inv.
      destruct (IH c hj hx _ Hcj Hclj Ha) as (Hclx & Hex).
      split; [by eapply abort_cleared|]. split; [done|].
      by intros c' [= <-]. }
    destruct (IHitems hj' hk' r') as (Hcrest & Hclk & Hitems);
      [by transitivity hj|done|done|].
    split; [by transitivity hj'|]. split; [done|].
    intros k' c [Heq|Hin]%elem_of_cons.
    - injection Heq as -> <-. apply (empty_in_cleared hj'); [done|].
      by apply Hv.
    - by eapply Hitems. }
  destruct (Hloop_inv _ _ _ _ Hci Hclosed Hloop) as (Hcik & Hclk & Hitems).
  apply bind_inv in Hrest as [(h2 & [] & Hu & Hret)|(e & Hu & _)]; [|done].
  injection Hret as <- _. injection Hu as <-.
  set (h' := Heap (dicts hk)
               (alter (fun td => TD (_original td) []) self (wrappers hk)))
    in *.
  assert (cleared hk h') as Hckh by apply cleared_empty_overlay.
  intros w c Hw Hchild. destruct (decide (w = self)) as [->|Hne].
  - destruct Hchild as (td & k & Hself & Hin).
    destruct Hci as (_ & _ & Hci).
    destruct (Hci self tdi Hselfi) as (td0 & Hself0 & _ & Hov).
    rewrite Hself in Hself0. injection Hself0 as <-.
    destruct Hov as [Hov|Hov].
    + apply (empty_in_cleared hk); [done|]. apply (Hitems k).
      by rewrite Hov.
    + apply (empty_in_cleared hi); [by transitivity hk|].
      apply (Hclosed self); [by exists tdi|]. by exists td, k.
  - apply (empty_in_cleared hk); [done|]. apply (Hclk w); [|done].
    destruct Hw as (tdw & Hw & Ho). exists tdw. split; [|done].
    unfold h' in Hw. simpl in Hw. by rewrite list_lookup_alter_ne in Hw.
Qed.

(** X11.  [abort] reaches every nested wrapper: when it returns, each
    wrapper that could be reached from [self] through overlays, at any
    depth, has an empty overlay, so a reference to a nested wrapper that
    the caller kept shows its base again. *)
Theorem abort_empties_nested (fuel : nat) (self : loc) (h h' : heap)
    (r : result val) :
  abort fuel self h = Some (h', r) ->
  forall n, rtc (child h) self n -> empty_in h' n.
Proof.
  intros Habort.
  destruct (abort_closed_step h fuel self h h' r) as (Hclosed & Hself);
    [reflexivity| |done|].
  { intros w c (td & Hw & Ho) (td' & k & Hw' & Hin).
    rewrite Hw in Hw'. injection Hw' as <-. rewrite Ho in Hin.
    by apply elem_of_nil in Hin. }
  clear Habort. intros n Hreach. revert Hself.
  induction Hreach as [x|x y z Hxy Hyz IH]; intros Hx; [done|].
  apply IH. by apply (Hclosed x).
Qed.

Lemma abort_empties_nested_witness :
  exists h',
    abort 2 0 (Heap (dicts example_data)
                 [TD 0 [(KStr "n", VTrans 1)]; TD 1 [(KStr "p", VInt 2)]])
    = Some (h', Ret (VDict 0))
    /\ empty_in h' 1.
Proof.
  eexists. split; [reflexivity|].
  refine (abort_empties_nested 2 0
            (Heap (dicts example_data)
               [TD 0 [(KStr "n", VTrans 1)]; TD 1 [(KStr "p", VInt 2)]])
            _ (Ret (VDict 0)) eq_refl 1 _).
  apply rtc_once. exists (TD 0 [(KStr "n", VTrans 1)]), (KStr "n").
  split; [reflexivity|]. apply list_elem_of_here.
Defined.

(** ** [diff], entry by entry *)

(** X12.  On well nested wrappers [diff] returns, given fuel for the
    depth of the nesting, and leaves the store as it is.  It has an entry
    exactly for the keys of the overlay: for a staged value the pair of
    the base value and the staged value, with [Undefined] in the first
    place for a key the base does not have, and for a key marked as
    deleted the marker itself in the second place; for a nested wrapper
    the diff of that wrapper. *)
Theorem diff_entries (fuel : nat) (self : loc) (h : heap)
    (td : TransactionalDict) (B : pydict) :
  well_nested h -> wrappers h !! self = Some td ->
  dicts h !! _original td = Some B ->
  length (wrappers h) - self <= fuel ->
  exists d,
    diff fuel self h = Some (h, Ret d)
    /\ (forall k, is_Some (PyDict.get d k)
                  <-> is_Some (PyDict.get (_overlay td) k))
    /\ (forall k v, PyDict.get (_overlay td) k = Some v ->
          isinstance_TransactionalDict v = false ->
          PyDict.get d k
          = Some (DPair (match PyDict.get B k with
                         | Some old => old
                         | None => VUndefined
                         end) v))
    /\ (forall k n, PyDict.get (_overlay td) k = Some (VTrans n) ->
          exists d', diff (pred fuel) n h = Some (h, Ret d')
                     /\ PyDict.get d k = Some (DNested d')).
Proof.
  intros Hwn Hself HB Hfuel.
  destruct (diff_terminates fuel self h td B Hwn Hself HB Hfuel)
    as (d & Hdiff & Hnone & Hpair & Hnested).
  exists d. split; [done|]. split; [|split; [exact Hpair|exact Hnested]].
  intros k. destruct (PyDict.get (_overlay td) k) as [v|] eqn:Ho.
  - split; [by eexists|]. intros _.
    destruct (isinstance_TransactionalDict v) eqn:Hv.
    + destruct v; try done. destruct (Hnested k l Ho) as (d' & _ & ->).
      by eexists.
    + rewrite (Hpair k v Ho Hv). by eexists.
  - rewrite (Hnone k Ho). split; by intros [? [=]].
Qed.

Lemma diff_entries_witness :
  exists d,
    diff 1 0 example_heap = Some (example_heap, Ret d)
    /\ PyDict.get d (KStr "d") = Some (DPair (VInt 2) VUndefined)
    /\ PyDict.get d (KStr "o") = Some (DPair VUndefined (VInt 5))
    /\ ~ is_Some (PyDict.get d (KStr "a")).
Proof.
  destruct (diff_entries 1 0 example_heap example_wrapper example_base)
    as (d & Hdiff & Hkeys & Hpair & _).
  - intros w td Hw. destruct w as [|w]; [|done]. injection Hw as <-.
    split; [by eexists|]. split.
    + unfold PyDict.keys. simpl. repeat (apply NoDup_cons; split);
        try apply NoDup_nil_2; rewrite ?elem_of_cons, ?elem_of_nil;
        intros Hin; repeat destruct Hin as [Hin|Hin]; done.
    + intros k w' Hin. simpl in Hin.
      repeat (apply elem_of_cons in Hin as [Hin|Hin]; [done|]).
      by apply elem_of_nil in Hin.
  - reflexivity.
  - reflexivity.
  - simpl. lia.
  - exists d. split; [exact Hdiff|].
    split; [exact (Hpair (KStr "d") VUndefined eq_refl eq_refl)|].
    split; [exact (Hpair (KStr "o") (VInt 5) eq_refl eq_refl)|].
    intros Hd. apply Hkeys in Hd. destruct Hd as [? Hd]. discriminate.
Defined.

(** ** [transaction], end to end *)

(** X13.  An error in the block rolls the transaction back.  For a store
    of plain data and a block that makes calls staging scalars and dicts
    and then raises an instance of [Exception], [transaction] raises that
    exception and every dict of the store is as it was before the
    [with] statement. *)
Theorem transaction_rolls_back (h : heap) (b : loc) (ops : list op)
    (e : exn) (h2 : heap) (fuel : nat) :
  plain_data h -> well_nested h ->
  is_Some (dicts h !! b) ->
  Forall plain_op ops ->
  is_Exception e = true ->
  run_ops ops (Heap (dicts h) (wrappers h ++ [TD b []])) = Some h2 ->
  length (wrappers h2) - length (wrappers h) <= fuel ->
  exists h3,
    transaction fuel (VDict b) (script_scope ops (Raise e)) h
    = Some (h3, Raise e)
    /\ dicts h3 = dicts h.
Proof.
  intros Hpd Hwn Hb Hplain He Hrun Hfuel.
  set (h1 := Heap (dicts h) (wrappers h ++ [TD b []])) in *.
  assert (well_nested h1) as Hwn1 by (by apply well_nested_init).
  assert (well_nested h2) as Hwn2.
  { eapply run_ops_well_nested; [done| |done|done].
    by apply (plain_data_dicts h). }
  destruct (run_ops_extends _ _ _ Hrun (length (wrappers h)) (TD b []))
    as (td & Ht & Ho).
  { unfold h1. simpl. by rewrite lookup_app_r, Nat.sub_diag by lia. }
  destruct (abort_terminates fuel _ h2 td Hwn2 Ht Hfuel)
    as (h3 & Habort & Hd3 & _).
  exists h3. split.
  - unfold transaction, bind at 1. unfold __init__ at 1. fold h1.
    unfold try_except_Exception, bind at 1. unfold script_scope at 1.
    rewrite Hrun, He. unfold bind. by rewrite Habort.
  - rewrite Hd3. by rewrite (run_ops_dicts _ _ _ Hrun).
Qed.

Lemma transaction_rolls_back_witness :
  exists h3,
    transaction 2 (VDict 0) (script_scope example_script (Raise (Thrown true 1)))
      example_data
    = Some (h3, Raise (Thrown true 1))
    /\ dicts h3 = dicts example_data.
Proof.
  refine (transaction_rolls_back example_data 0 example_script
            (Thrown true 1) _ 2 example_data_plain _ _ _ eq_refl eq_refl _).
  - by apply no_wrappers_well_nested.
  - by eexists.
  - repeat constructor.
  - simpl. lia.
Defined.





(** X15.  The handler of [transaction] names [Exception] only.  When the
    block makes its calls and then raises an exception that is not an
    instance of it (KeyboardInterrupt, SystemExit), the exception passes
    through and the transaction is neither committed nor aborted: the
    dicts are as before the [with] statement, and the store is the one
    the block left, overlays included. *)
Theorem transaction_interrupted (fuel : nat) (h : heap) (b : loc)
    (ops : list op) (e : exn) (h2 : heap) :
  is_Exception e = false ->
  run_ops ops (Heap (dicts h) (wrappers h ++ [TD b []])) = Some h2 ->
  transaction fuel (VDict b) (script_scope ops (Raise e)) h
  = Some (h2, Raise e)
  /\ dicts h2 = dicts h.
Proof.
  intros He Hrun. split.
  - apply (transaction_other_exception_passes fuel _ h b
             (Heap (dicts h) (wrappers h ++ [TD b []]))
             (length (wrappers h))); [done| |done].
    unfold script_scope. by rewrite Hrun.
  - by rewrite (run_ops_dicts _ _ _ Hrun).
Qed.

Lemma transaction_interrupted_witness :
  transaction 0 (VDict 0)
    (script_scope [OpSet 0 (KStr "a") (VStr "x")] (Raise (Thrown false 2)))
    example_data
  = Some (Heap (dicts example_data) [TD 0 [(KStr "a", VStr "x")]],
          Raise (Thrown false 2))
  /\ dicts (Heap (dicts example_data) [TD 0 [(KStr "a", VStr "x")]])
     = dicts example_data.
Proof.
  exact (transaction_interrupted 0 example_data 0
           [OpSet 0 (KStr "a") (VStr "x")] (Thrown false 2)
           (Heap (dicts example_data) [TD 0 [(KStr "a", VStr "x")]])
           eq_refl eq_refl).
Defined.

(** ** Wrappers do not see each other *)

(** X16.  Calls on other wrappers leave a wrapper alone: after any script
    none of whose calls is made on the wrapper [n], the object [n] is as it
    was (its overlay included), every dict is as it was, and [key in n]
    answers as before for every key.  Two transactions over one base do
    not see what the other has staged. *)
Theorem other_wrappers_untouched (ops : list op) (h h' : heap) (n : loc)
    (td : TransactionalDict) :
  run_ops ops h = Some h' ->
  Forall (fun o => op_target o <> n) ops ->
  wrappers h !! n = Some td ->
  wrappers h' !! n = Some td
  /\ dicts h' = dicts h
  /\ forall k, snd <$> __contains__ n k h' = snd <$> __contains__ n k h.
Proof.
  intros Hrun Hother Hn.
  pose proof (run_ops_keeps_wrapper _ _ _ _ _ Hrun Hother Hn) as Hn'.
  pose proof (run_ops_dicts _ _ _ Hrun) as Hd.
  split; [done|]. split; [done|]. intros k.
  rewrite (contains_eval h' n td k Hn'), (contains_eval h n td k Hn), Hd.
  by destruct (dicts h !! _original td).
Qed.

Lemma other_wrappers_untouched_witness :
  exists h',
    run_ops [OpSet 1 (KStr "a") (VStr "x"); OpDel 1 (KStr "d")]
      (Heap (dicts example_data) [TD 0 []; TD 0 []]) = Some h'
    /\ wrappers h' !! 0 = Some (TD 0 [])
    /\ dicts h' = dicts example_data
    /\ forall k,
         snd <$> __contains__ 0 k h'
         = snd <$> __contains__ 0 k
                     (Heap (dicts example_data) [TD 0 []; TD 0 []]).
Proof.
  eexists. split; [reflexivity|].
  refine (other_wrappers_untouched
            [OpSet 1 (KStr "a") (VStr "x"); OpDel 1 (KStr "d")]
            (Heap (dicts example_data) [TD 0 []; TD 0 []]) _ 0 (TD 0 [])
            eq_refl _ eq_refl).
  apply Forall_cons. split; [simpl; lia|].
  apply Forall_cons. split; [simpl; lia|]. apply Forall_nil_2.
Defined.


(** ** A transaction that only reads *)

Lemma set_same {V} (d : list (key * V)) k v :
  PyDict.get d k = Some v -> PyDict.set d k v = d.
Proof.
  induction d as [|[k0 v0] d IH]; simpl; [done|].
  destruct (decide (k0 = k)) as [->|Hne].
  - by intros [= ->].
  - intros Hd. by rewrite IH.
Qed.

Lemma dict_setitem_same b k v h B :
  dicts h !! b = Some B -> PyDict.get B k = Some v ->
  dict_setitem b k v h = Some (h, Ret tt).
Proof.
  intros HB Hk. unfold dict_setitem. run_py. rewrite HB. do 2 f_equal.
  destruct h as [ds ws]. simpl in *. f_equal.
  rewrite (alter_as_insert _ _ _ _ HB), set_same by done.
  by apply list_insert_id.
Qed.

Lemma cleared_mirrors h h' : cleared h h' -> mirrors h -> mirrors h'.
Proof.
  intros (Hd & Hl & Hc) Hm w td' B k v Hw' HB' Hin.
  destruct (Hc w td' Hw') as (td & Hw & Ho & Hov).
  destruct Hov as [Hov|Hov]; rewrite Hov in Hin;
    [|by apply elem_of_nil in Hin].
  rewrite Hd, Ho in HB'. specialize (Hm w td B k v Hw HB' Hin).
  destruct v; try done. destruct Hm as (tdn & Hn & Hk).
  destruct (lookup_lt_is_Some_2 (wrappers h') l) as [tdn' Hn'].
  { rewrite Hl. by eapply lookup_lt_Some. }
  destruct (Hc l tdn' Hn') as (tdn0 & Hn0 & Ho0 & _).
  rewrite Hn in Hn0. injection Hn0 as <-. exists tdn'. by rewrite Ho0.
Qed.

Lemma commit_loop_mirror (rec : loc -> M val) self len b B items :
  (forall w' h td', self < w' -> well_nested h -> mirrors h ->
     length (wrappers h) = len -> wrappers h !! w' = Some td' ->
     exists h', rec w' h = Some (h', Ret (VDict (_original td')))
                /\ cleared h h') ->
  (forall k w', (k, VTrans w') ∈ items -> self < w' < len) ->
  forall h, well_nested h -> mirrors h -> length (wrappers h) = len ->
    dicts h !! b = Some B ->
    (forall k v, (k, v) ∈ items ->
       match v with
       | VTrans n =>
           exists tdn, wrappers h !! n = Some tdn
                       /\ PyDict.get B k = Some (VDict (_original tdn))
       | VUndefined => False
       | _ => PyDict.get B k = Some v
       end) ->
    exists h', for_items items (commit_item rec b) tt h = Some (h', Ret tt)
               /\ cleared h h'.
Proof.
  intros Hrec.
  induction items as [|[k v] items IH];
    intros Hitems h Hwn Hm Hlen HB Hmir.
  { exists h. split; [done|reflexivity]. }
  assert (exists h1, commit_item rec b k v tt h = Some (h1, Ret tt)
                     /\ cleared h h1) as (h1 & Hitem & Hc1).
  { pose proof (Hmir k v (list_elem_of_here _ _)) as Hkv.
    unfold commit_item.
    destruct v as [| | | |m|w'];
      try (exists h; split; [by apply (dict_setitem_same b k _ h B)|
                             reflexivity]);
      [done|].
    destruct Hkv as (tdn & Hn & Hk).
    assert (self < w' < len) as Hw'
      by (apply (Hitems k); apply list_elem_of_here).
    destruct (Hrec w' h tdn) as (h1 & Hr & Hc); [lia|done|done|done|done|].
    exists h1. split; [|done]. unfold bind. rewrite Hr.
    apply (dict_setitem_same b k _ h1 B); [|done].
    destruct Hc as (-> & _). done. }
  destruct (IH (fun k' w' Hin =>
                  Hitems k' w' (list_elem_of_further _ _ _ Hin)) h1)
    as (h2 & Hrest & Hc2).
  - by eapply cleared_well_nested.
  - by eapply cleared_mirrors.
  - destruct Hc1 as (_ & Hl & _). congruence.
  - destruct Hc1 as (-> & _). done.
  - intros k' v' Hin.
    pose proof (Hmir k' v' (list_elem_of_further _ _ _ Hin)) as Hkv.
    destruct v'; try done. destruct Hkv as (tdn & Hn & Hk).
    destruct Hc1 as (_ & Hl & Hc1).
    destruct (lookup_lt_is_Some_2 (wrappers h1) l) as [tdn' Hn'].
    { rewrite Hl. by eapply lookup_lt_Some. }
    destruct (Hc1 l tdn' Hn') as (tdn0 & Hn0 & Ho0 & _).
    rewrite Hn in Hn0. injection Hn0 as <-. exists tdn'. by rewrite Ho0.
  - exists h2. split; [|by transitivity h1].
    simpl. unfold bind at 1. by rewrite Hitem.
Qed.

Lemma commit_mirror fuel self h td :
  well_nested h -> mirrors h -> wrappers h !! self = Some td ->
  length (wrappers h) - self <= fuel ->
  exists h', commit fuel self h = Some (h', Ret (VDict (_original td)))
             /\ cleared h h'.
Proof.
  revert self h td.
  induction fuel as [|fuel IH]; intros self h td Hwn Hm Hself Hfuel.
  { apply lookup_lt_Some in Hself. lia. }
  destruct (Hwn self td Hself) as ([B HB] & _ & Hnest).
  destruct (commit_loop_mirror (commit fuel) self (length (wrappers h))
              (_original td) B (_overlay td)) with (h := h)
    as (h1 & Hloop & Hc1); [|done|done|done|done|done| |].
  { intros w' h0 td' Hlt Hwn0 Hm0 Hlen0 Htd'.
    destruct (IH w' h0 td' Hwn0 Hm0 Htd') as (h' & Hc & Hcl); [lia|]. eauto. }
  { intros k v Hin. exact (Hm self td B k v Hself HB Hin). }
  eexists. split.
  - simpl. unfold bind at 1, the_wrapper. rewrite Hself.
    unfold bind at 1. rewrite Hloop. reflexivity.
  - transitivity h1; [done|]. apply cleared_empty_overlay.
Qed.

Lemma mirrors_dicts_wrappers h h' :
  dicts h' = dicts h -> wrappers h' = wrappers h -> mirrors h -> mirrors h'.
Proof. unfold mirrors. intros -> ->. done. Qed.

Lemma getitem_mirrors self k h h' r :
  plain_data h -> no_sentinel h -> mirrors h ->
  __getitem__ self k h = Some (h', r) -> mirrors h'.
Proof.
  intros Hpd Hns Hm. unfold __getitem__. run_py.
  destruct (wrappers h !! self) as [td|] eqn:Hself; [|done].
  destruct (PyDict.get (_overlay td) k) as [item|] eqn:Ho.
  { destruct (is_Undefined item); by intros [= <- <-]. }
  destruct (dicts h !! _original td) as [B|] eqn:HB; [|done].
  destruct (PyDict.get B k) as [item|] eqn:Hitem; [|by intros [= <- <-]].
  pose proof (lookup_lt_Some _ _ _ Hself) as Hlt.
  pose proof (PyDictFacts.get_Some_elem _ _ _ Hitem) as Hin.
  pose proof (Hpd _ _ _ _ HB Hin) as Hv.
  assert (item <> VUndefined) as Hnu.
  { intros ->. by apply (Hns _ _ _ HB) in Hin. }
  assert (forall v,
            match v with
            | VDict _ | VTrans _ | VUndefined => False
            | _ => True
            end ->
            PyDict.get B k = Some v ->
            mirrors
              (Heap (dicts h)
                 (alter (fun td => TD (_original td)
                                      (PyDict.set (_overlay td) k v))
                    self (wrappers h)))) as Hscalar.
  { intros v Hvs Hbk w td' B' k' v'. simpl. rewrite list_lookup_alter.
    case_decide as Heq.
    - subst w. rewrite Hself. simpl. intros [= <-]. simpl.
      rewrite HB. intros [= <-].
      intros [Hin'|[-> ->]]%PyDictFacts.elem_set.
      + pose proof (Hm self td B k' v' Hself HB Hin') as Hkv.
        destruct v'; try done. destruct Hkv as (tdn & Hn & Hk).
        rewrite list_lookup_alter. case_decide; [subst|by exists tdn].
        rewrite Hn. simpl. by eexists.
      + by destruct v.
    - intros Hw HB' Hin'.
      pose proof (Hm w td' B' k' v' Hw HB' Hin') as Hkv.
      destruct v'; try done. destruct Hkv as (tdn & Hn & Hk).
      rewrite list_lookup_alter. case_decide; [subst|by exists tdn].
      rewrite Hn. simpl. by eexists. }
  destruct item as [| | | |m|w0]; try done; simpl;
    try (intros [= <- <-]; by apply Hscalar).
  intros [= <- <-]. intros w td' B' k' v'. simpl.
  rewrite list_lookup_alter. case_decide as Heq.
  - subst w. rewrite lookup_app_l, Hself by done. simpl.
    intros [= <-]. simpl. rewrite HB. intros [= <-].
    intros [Hin'|[-> ->]]%PyDictFacts.elem_set.
    + pose proof (Hm self td B k' v' Hself HB Hin') as Hkv.
      destruct v'; try done. destruct Hkv as (tdn & Hn & Hk).
      rewrite list_lookup_alter. case_decide.
      * subst. rewrite lookup_app_l, Hn by done. simpl. by eexists.
      * exists tdn. split; [|done]. by apply lookup_app_l_Some.
    + exists (TD m []). split; [|done].
      rewrite list_lookup_alter_ne by lia.
      by rewrite lookup_app_r, Nat.sub_diag by lia.
  - destruct (decide (w < length (wrappers h))) as [Hw|Hw].
    + rewrite lookup_app_l by done. intros Hw' HB' Hin'.
      pose proof (Hm w td' B' k' v' Hw' HB' Hin') as Hkv.
      destruct v'; try done. destruct Hkv as (tdn & Hn & Hk).
      rewrite list_lookup_alter. case_decide.
      * subst. rewrite lookup_app_l, Hn by done. simpl. by eexists.
      * exists tdn. split; [|done]. by apply lookup_app_l_Some.
    + rewrite lookup_app_r by lia.
      destruct (w - length (wrappers h)) as [|i]; simpl; [|done].
      intros [= <-] _ Hin'. by apply elem_of_nil in Hin'.
Qed.

Lemma no_sentinel_dicts h h' :
  dicts h' = dicts h -> no_sentinel h -> no_sentinel h'.
Proof. unfold no_sentinel. intros ->. done. Qed.

Lemma run_gets_mirrors ops h h' :
  Forall is_get ops -> plain_data h -> no_sentinel h -> mirrors h ->
  run_ops ops h = Some h' -> mirrors h'.
Proof.
  revert h. induction ops as [|o ops IH]; intros h Hg Hpd Hns Hm; simpl.
  - by intros [= <-].
  - apply Forall_cons in Hg as [Ho Hg].
    destruct (run_op o h) as [[h1 r]|] eqn:Hrun; [|done].
    pose proof (run_op_dicts _ _ _ _ Hrun) as Hd.
    apply IH; [done|by apply (plain_data_dicts h)|
               by apply (no_sentinel_dicts h)|].
    destruct o as [w k| |]; try done. simpl in Hrun.
    apply bind_inv in Hrun as [(h2 & a & Hget & [= <- <-])|(e & Hget & _)];
      by eapply getitem_mirrors.
Qed.

Lemma is_get_plain ops : Forall is_get ops -> Forall plain_op ops.
Proof. intros Hg. eapply Forall_impl; [done|]. by intros []. Qed.

(** X17.  A transaction that only reads commits nothing.  Over a store of
    plain data in which no dict holds the sentinel [Undefined], after a
    new wrapper and any gets on it and on the nested wrappers the gets
    return, [commit] returns the base and every dict of the store is as
    it was: the values that the reads cached in the overlays are written
    back unchanged. *)
Theorem read_only_commit_changes_nothing (h0 : heap) (b : loc)
    (ops : list op) (h2 : heap) (fuel : nat) :
  plain_data h0 -> no_sentinel h0 -> wrappers h0 = [] ->
  is_Some (dicts h0 !! b) ->
  Forall is_get ops ->
  run_ops ops (Heap (dicts h0) [TD b []]) = Some h2 ->
  length (wrappers h2) <= fuel ->
  exists h3,
    commit fuel 0 h2 = Some (h3, Ret (VDict b))
    /\ dicts h3 = dicts h0.
Proof.
  intros Hpd Hns Hw0 Hb Hgets Hrun Hfuel.
  set (h1 := Heap (dicts h0) [TD b []]) in *.
  assert (well_nested h1) as Hwn1.
  { pose proof (well_nested_init h0 b (no_wrappers_well_nested h0 Hw0) Hb)
      as Hwn. by rewrite Hw0 in Hwn. }
  assert (mirrors h1) as Hm1.
  { intros w td B k v Hw _ Hin. destruct w as [|w]; [|done].
    injection Hw as <-. by apply elem_of_nil in Hin. }
  assert (well_nested h2) as Hwn2.
  { eapply run_ops_well_nested; [by apply is_get_plain| |done|done].
    by apply (plain_data_dicts h0). }
  assert (mirrors h2) as Hm2.
  { eapply run_gets_mirrors; [done| | |done|done].
    - by apply (plain_data_dicts h0).
    - by apply (no_sentinel_dicts h0). }
  destruct (run_ops_extends _ _ _ Hrun 0 (TD b [])) as (td & Ht & Ho);
    [done|].
  destruct (commit_mirror fuel 0 h2 td Hwn2 Hm2 Ht) as (h3 & Hc & Hd3 & _);
    [lia|].
  exists h3. simpl in Ho. rewrite Ho in Hc. split; [done|].
  rewrite Hd3. by rewrite (run_ops_dicts _ _ _ Hrun).
Qed.

Lemma example_data_no_sentinel : no_sentinel example_data.
Proof.
  intros b d k Hb Hin. destruct b as [|[|b]]; simplify_eq/=.
  - unfold example_base in Hin.
    repeat (apply elem_of_cons in Hin as [Hin|Hin]; simplify_eq/=).
    by apply elem_of_nil in Hin.
  - repeat (apply elem_of_cons in Hin as [Hin|Hin]; simplify_eq/=).
    by apply elem_of_nil in Hin.
Qed.

Lemma read_only_commit_changes_nothing_witness :
  exists h3,
    run_ops [OpGet 0 (KStr "a"); OpGet 0 (KStr "n"); OpGet 1 (KStr "p");
             OpGet 0 (KStr "zz")]
      (Heap (dicts example_data) [TD 0 []])
    = Some (Heap (dicts example_data)
              [TD 0 [(KStr "a", VInt 1); (KStr "n", VTrans 1)];
               TD 1 [(KStr "p", VInt 1)]])
    /\ commit 2 0
         (Heap (dicts example_data)
            [TD 0 [(KStr "a", VInt 1); (KStr "n", VTrans 1)];
             TD 1 [(KStr "p", VInt 1)]])
       = Some (h3, Ret (VDict 0))
    /\ dicts h3 = dicts example_data.
Proof.
  destruct (read_only_commit_changes_nothing example_data 0
              [OpGet 0 (KStr "a"); OpGet 0 (KStr "n"); OpGet 1 (KStr "p");
               OpGet 0 (KStr "zz")]
              (Heap (dicts example_data)
                 [TD 0 [(KStr "a", VInt 1); (KStr "n", VTrans 1)];
                  TD 1 [(KStr "p", VInt 1)]]) 2
              example_data_plain example_data_no_sentinel eq_refl
              (ex_intro _ example_base eq_refl))
    as (h3 & Hcommit & Hdicts).
  - repeat constructor.
  - reflexivity.
  - simpl. lia.
  - exists h3. split; [reflexivity|]. split; [exact Hcommit|exact Hdicts].
Defined.

(** ** [commit] through one nested wrapper *)

Lemma get_app {V} (d1 d2 : list (key * V)) k :
  PyDict.get (d1 ++ d2) k
  = match PyDict.get d1 k with
    | Some v => Some v
    | None => PyDict.get d2 k
    end.
Proof.
  induction d1 as [|[k0 v0] d1 IH]; simpl; [done|].
  by destruct (decide (k0 = k)).
Qed.

Lemma get_in_keys {V} (d : list (key * V)) k v :
  PyDict.get d k = Some v -> k ∈ PyDict.keys d.
Proof.
  intros Hk%PyDictFacts.get_Some_elem. unfold PyDict.keys.
  apply list_elem_of_fmap. by exists (k, v).
Qed.

Lemma dict_setitem_runs b k v h B :
  dicts h !! b = Some B ->
  dict_setitem b k v h
  = Some (Heap (<[b := PyDict.set B k v]> (dicts h)) (wrappers h), Ret tt).
Proof.
  intros HB. unfold dict_setitem. run_py. rewrite HB.
  by rewrite (alter_as_insert _ _ _ _ HB).
Qed.

Lemma commit_S fuel self h :
  commit (S fuel) self h
  = (do td <- the_wrapper self;
     for_items (_overlay td) (commit_item (commit fuel) (_original td)) tt;;
     update_overlay self (fun _ => []);;
     ret (VDict (_original td))) h.
Proof. reflexivity. Qed.

(** [commit] of a wrapper with a flat overlay, as a store. *)
Lemma commit_flat_heap fuel h self td B :
  wrappers h !! self = Some td ->
  dicts h !! _original td = Some B ->
  flat (_overlay td) ->
  NoDup (PyDict.keys (_overlay td)) ->
  (forall k, PyDict.get (_overlay td) k = Some VUndefined ->
     is_Some (PyDict.get B k)) ->
  exists B',
    commit (S fuel) self h
    = Some (Heap (<[_original td := B']> (dicts h))
              (<[self := TD (_original td) []]> (wrappers h)),
            Ret (VDict (_original td)))
    /\ forall k, PyDict.get B' k = effective B (_overlay td) k.
Proof.
  intros Hself HB Hflat Hnd Hdel.
  destruct (commit_loop_flat (commit fuel) (_original td) (_overlay td)
              Hflat Hnd h B HB Hdel) as (B' & Hloop & HB').
  exists B'. split; [|done].
  simpl. unfold bind at 1, the_wrapper. rewrite Hself.
  unfold bind at 1. rewrite Hloop. run_py. do 3 f_equal.
  by rewrite (alter_as_insert _ _ _ _ Hself).
Qed.

(** X18.  [commit] writes through a nested wrapper.  Let the overlay of
    [self] hold, under [k], the wrapper [n] of another dict, and
    otherwise no wrapper, and let the overlay of [n] hold no wrapper
    either; keys marked as deleted are in their bases.  Then [commit] on
    [self] returns its base; the dict of [n] ends up showing what [n]
    showed; the base of [self] has that same dict object under [k], and
    for every other key what the rest of the overlay showed; both
    overlays are emptied and nothing else changes. *)
Theorem commit_writes_through_nested (fuel : nat) (h : heap)
    (self n : loc) (td tdn : TransactionalDict) (B Bn : pydict)
    (pre post : pydict) (k : key) :
  wrappers h !! self = Some td ->
  dicts h !! _original td = Some B ->
  _overlay td = pre ++ (k, VTrans n) :: post ->
  flat pre -> flat post ->
  NoDup (PyDict.keys (_overlay td)) ->
  (forall k', PyDict.get (pre ++ post) k' = Some VUndefined ->
     is_Some (PyDict.get B k')) ->
  wrappers h !! n = Some tdn ->
  n <> self ->
  dicts h !! _original tdn = Some Bn ->
  _original tdn <> _original td ->
  flat (_overlay tdn) ->
  NoDup (PyDict.keys (_overlay tdn)) ->
  (forall k', PyDict.get (_overlay tdn) k' = Some VUndefined ->
     is_Some (PyDict.get Bn k')) ->
  exists B' Bn',
    commit (S (S fuel)) self h
    = Some (Heap (<[_original td := B']>
                    (<[_original tdn := Bn']> (dicts h)))
              (<[self := TD (_original td) []]>
                 (<[n := TD (_original tdn) []]> (wrappers h))),
            Ret (VDict (_original td)))
    /\ (forall k', PyDict.get Bn' k' = effective Bn (_overlay tdn) k')
    /\ PyDict.get B' k = Some (VDict (_original tdn))
    /\ (forall k', k' <> k ->
          PyDict.get B' k' = effective B (pre ++ post) k').
Proof.
  intros Hself HB Ho Hfpre Hfpost Hnd Hdel Hn Hne HBn Hbne Hfn Hndn Hdeln.
  set (b := _original td) in *. set (m := _original tdn) in *.
  pose proof (lookup_lt_Some _ _ _ HB) as Hblt.
  pose proof (lookup_lt_Some _ _ _ HBn) as Hmlt.
  pose proof (lookup_lt_Some _ _ _ Hself) as Hslt.
  pose proof (lookup_lt_Some _ _ _ Hn) as Hnlt.
  (* the keys of the three parts of the overlay are apart *)
  rewrite Ho in Hnd. unfold PyDict.keys in Hnd.
  rewrite fmap_app in Hnd. simpl in Hnd.
  apply NoDup_app in Hnd as (Hndpre & Hdisj & Hndrest).
  apply NoDup_cons in Hndrest as [Hkpost Hndpost].
  assert (k ∉ PyDict.keys pre) as Hkpre.
  { intros Hin. apply (Hdisj k Hin). apply list_elem_of_here. }
  assert (forall k', k' ∈ PyDict.keys pre -> k' ∉ PyDict.keys post)
    as Hprepost.
  { intros k' Hin Hin'. apply (Hdisj k' Hin).
    by apply list_elem_of_further. }
  (* the entries before the nested wrapper *)
  destruct (commit_loop_flat (commit (S fuel)) b pre Hfpre Hndpre h B HB)
    as (B1 & Hloop1 & HB1).
  { intros k' Hk'. apply Hdel. rewrite get_app. by rewrite Hk'. }
  set (h1 := Heap (<[b := B1]> (dicts h)) (wrappers h)) in *.
  (* the commit of the nested wrapper *)
  destruct (commit_flat_heap fuel h1 n tdn Bn) as (Bn' & Hnested & HBn');
    [done| |done|done|done|].
  { unfold h1. simpl. by rewrite list_lookup_insert_ne. }
  fold m in Hnested.
  set (h2 := Heap (<[m := Bn']> (dicts h1))
               (<[n := TD m []]> (wrappers h1))) in *.
  set (B2 := PyDict.set B1 k (VDict m)).
  set (h3 := Heap (<[b := B2]> (dicts h2)) (wrappers h2)).
  assert (dicts h2 !! b = Some B1) as HB1h2.
  { unfold h2, h1. simpl. rewrite list_lookup_insert_ne by done.
    by apply list_lookup_insert_eq. }
  assert (commit_item (commit (S fuel)) b k (VTrans n) tt h1
          = Some (h3, Ret tt)) as Hitem.
  { unfold commit_item, bind. rewrite Hnested.
    by rewrite (dict_setitem_runs b k _ h2 B1 HB1h2). }
  (* the entries after it *)
  destruct (commit_loop_flat (commit (S fuel)) b post Hfpost Hndpost h3 B2)
    as (B' & Hloop3 & HB').
  { unfold h3. simpl. apply list_lookup_insert_eq.
    unfold h2, h1. simpl. by rewrite !length_insert. }
  { intros k' Hk'. pose proof (get_in_keys _ _ _ Hk') as Hin.
    assert (k' <> k) as Hnek by (by intros ->).
    assert (PyDict.get pre k' = None) as Hpre'.
    { apply get_not_in_keys. intros Hin'. by apply (Hprepost k'). }
    unfold B2. rewrite PyDictFacts.get_set_ne by done.
    rewrite HB1. unfold effective. rewrite Hpre'.
    apply Hdel. rewrite get_app. by rewrite Hpre'. }
  exists B', Bn'. split; [|split; [done|split]].
  - rewrite commit_S. unfold bind at 1, the_wrapper. rewrite Hself.
    fold b. unfold bind at 1. rewrite Ho, for_items_app.
    unfold bind at 1. rewrite Hloop1. fold h1.
    change (for_items ((k, VTrans n) :: post)
              (commit_item (commit (S fuel)) b) tt h1)
      with (bind (commit_item (commit (S fuel)) b k (VTrans n) tt)
              (fun acc => for_items post (commit_item (commit (S fuel)) b)
                            acc) h1).
    unfold bind at 1. rewrite Hitem, Hloop3.
    unfold bind, update_overlay, ret. do 2 f_equal. f_equal.
    + unfold h3, h2, h1. simpl. rewrite list_insert_insert_eq.
      rewrite (list_insert_insert_ne _ m b) by done.
      by rewrite list_insert_insert_eq.
    + unfold h3, h2, h1. simpl.
      rewrite (alter_as_insert (fun td => TD (_original td) []) _ self td);
        [done|].
      by rewrite list_lookup_insert_ne.
  - rewrite HB'. unfold effective.
    rewrite (get_not_in_keys post k Hkpost). unfold B2.
    apply PyDictFacts.get_set_eq.
  - intros k' Hnek. rewrite HB'. unfold effective. rewrite get_app.
    destruct (PyDict.get post k') as [v|] eqn:Hpost.
    + assert (PyDict.get pre k' = None) as ->; [|done].
      apply get_not_in_keys. intros Hin.
      apply (Hprepost k' Hin). by eapply get_in_keys.
    + unfold B2. rewrite PyDictFacts.get_set_ne by done.
      rewrite HB1. unfold effective. by destruct (PyDict.get pre k').
Qed.

Lemma commit_writes_through_nested_witness :
  exists B' Bn',
    commit 2 0 example_nested_heap
    = Some (Heap [B'; Bn'] [TD 0 []; TD 1 []], Ret (VDict 0))
    /\ (forall k', PyDict.get Bn' k'
                   = effective [(KStr "p", VInt 1)] [(KStr "p", VInt 2)] k')
    /\ PyDict.get B' (KStr "n") = Some (VDict 1)
    /\ (forall k', k' <> KStr "n" ->
          PyDict.get B' k'
          = effective example_base
              [(KStr "a", VStr "x"); (KStr "d", VUndefined)] k').
Proof.
  refine (commit_writes_through_nested 0 example_nested_heap 0 1
            example_outer example_inner example_base [(KStr "p", VInt 1)]
            [(KStr "a", VStr "x")] [(KStr "d", VUndefined)] (KStr "n")
            eq_refl eq_refl eq_refl _ _ _ _ eq_refl _ eq_refl _ _ _ _).
  - intros k v Hin. apply list_elem_of_singleton in Hin.
    by injection Hin as -> ->.
  - intros k v Hin. apply list_elem_of_singleton in Hin.
    by injection Hin as -> ->.
  - unfold PyDict.keys. simpl. repeat (apply NoDup_cons; split);
      try apply NoDup_nil_2; rewrite ?elem_of_cons, ?elem_of_nil;
      intros Hin; repeat destruct Hin as [Hin|Hin]; done.
  - intros k' Hk'. simpl in Hk'.
    destruct (decide (KStr "a" = k')); [discriminate|].
    destruct (decide (KStr "d" = k')) as [<-|]; [by eexists|discriminate].
  - discriminate.
  - discriminate.
  - intros k v Hin. apply list_elem_of_singleton in Hin.
    by injection Hin as -> ->.
  - apply NoDup_singleton.
  - intros k' Hk'. simpl in Hk'.
    destruct (decide (KStr "p" = k')); discriminate.
Defined.
